(** * gwas-catalog-mcp: a shallow embedding of [utils.py] and [server.py]

    The adapter turns caller requests into GET requests against the GWAS
    Catalog REST API, pulls the record list out of the response body,
    annotates and filters it by genome-wide significance, and returns it in
    an envelope, spilling the complete list to a file when it is too large.

    Layout of this file:
    - [Py]: the Python values the program manipulates (JSON data, dicts in
      insertion order, truthiness, [str] methods, [float] conversion,
      exceptions, slicing, stable sorting);
    - [Eff]: the transport, the file system and the log of what the
      program does to them;
    - [Utils]: the functions of [utils.py];
    - [Server]: the functions of [server.py] that extract, annotate and
      process the records, and the operations that take a trait
      identifier;
    - [Demo]: a concrete outside world to run the program in;
    - [Envelope]: what one reads off an envelope and off a record;
    - [Lookups]: the single-object lookups of [server.py], with
      [format_error] of [utils.py], and the list operations keyed by study
      and by variant; [Reading] and [Samples]: more to read off values and
      more of the concrete world;
    - [PyFacts], [UtilsFacts], [SortFacts], [ServerFacts], [ExtractFacts]:
      the properties, and [Examples]: the properties on concrete inputs;
    - [LinkFacts], [ProcessorFacts], [OperationFacts]: further properties,
      and [MoreExamples]: these on concrete inputs. *)

From Stdlib Require Import ZArith List String Ascii Bool Lia.
From Stdlib Require Import Sorting.Sorted Sorting.Permutation.
From Stdlib Require Import Floats.SpecFloat.
Import ListNotations.

Local Open Scope string_scope.
Local Open Scope Z_scope.

Set Warnings "-register-all".

(* ================================================================== *)
(** * Python values *)
(* ================================================================== *)

Module Py.

(** The exceptions the program can meet, each class with its subclasses.
    [ValueError] is what the spec calls [InvalidIdentifier] when
    [validate_efo_id] raises it, [OSError] is its [StorageError]. *)
Inductive exn : Type :=
| ValueError
| TypeError
| OverflowError
| AttributeError
| OSError
| RequestException.

Inductive result (A : Type) : Type :=
| Ok (a : A)
| Raise (e : exn).
Arguments Ok {A} a.
Arguments Raise {A} e.

Definition rbind {A B : Type} (r : result A) (k : A -> result B) : result B :=
  match r with
  | Ok a => k a
  | Raise e => Raise e
  end.

Fixpoint mapR {A B : Type} (f : A -> result B) (l : list A) : result (list B) :=
  match l with
  | [] => Ok []
  | x :: r =>
      rbind (f x) (fun y => rbind (mapR f r) (fun ys => Ok (y :: ys)))
  end.

(** [ [x for x in l if p(x)] ] where [p] may raise. *)
Fixpoint filterR {A : Type} (p : A -> result bool) (l : list A) : result (list A) :=
  match l with
  | [] => Ok []
  | x :: r =>
      rbind (p x) (fun b =>
      rbind (filterR p r) (fun ys => Ok (if b then x :: ys else ys)))
  end.

(** Python objects as [json.loads] builds them.  A [float] is an IEEE 754
    binary64 number ([spec_float] at precision 53); a [str] is a sequence
    of code points, here the code points U+0000 to U+00FF, one per
    [ascii]; a [dict] keeps its items in insertion order (its keys are
    distinct, which [dict_set] preserves and no property below needs). *)
Inductive value : Type :=
| VNone
| VBool (b : bool)
| VInt (z : Z)
| VFloat (f : spec_float)
| VStr (s : string)
| VList (l : list value)
| VDict (kvs : list (string * value)).

Definition dict : Type := list (string * value).

(** Structural induction that reaches inside lists and dicts. *)
Section ValueInd.
Variable P : value -> Prop.
Hypothesis HNone : P VNone.
Hypothesis HBool : forall b, P (VBool b).
Hypothesis HInt : forall z, P (VInt z).
Hypothesis HFloat : forall f, P (VFloat f).
Hypothesis HStr : forall s, P (VStr s).
Hypothesis HList : forall l, Forall P l -> P (VList l).
Hypothesis HDict : forall kvs, Forall (fun kv => P (snd kv)) kvs -> P (VDict kvs).

Fixpoint value_deep_ind (v : value) : P v :=
  match v with
  | VNone => HNone
  | VBool b => HBool b
  | VInt z => HInt z
  | VFloat f => HFloat f
  | VStr s => HStr s
  | VList l =>
      HList l
        ((fix elems (l : list value) : Forall P l :=
            match l with
            | [] => Forall_nil P
            | x :: r => Forall_cons x (value_deep_ind x) (elems r)
            end) l)
  | VDict kvs =>
      HDict kvs
        ((fix entries (kvs : dict) : Forall (fun kv => P (snd kv)) kvs :=
            match kvs with
            | [] => Forall_nil _
            | kv :: r =>
                Forall_cons (P := fun kv => P (snd kv)) kv
                  (value_deep_ind (snd kv)) (entries r)
            end) kvs)
  end.
End ValueInd.

(** ** dict operations *)

(** [d.get(k)]: [None] when [k] is not a key. *)
Fixpoint dict_get (k : string) (d : dict) : option value :=
  match d with
  | [] => None
  | (k', v) :: r => if String.eqb k' k then Some v else dict_get k r
  end.

(** [d[k] = v]: an existing key keeps its position, a new key goes last. *)
Fixpoint dict_set (k : string) (v : value) (d : dict) : dict :=
  match d with
  | [] => [(k, v)]
  | (k', v') :: r =>
      if String.eqb k' k then (k', v) :: r else (k', v') :: dict_set k v r
  end.

(** [d.update(u)] *)
Definition dict_update (d u : dict) : dict :=
  fold_left (fun acc kv => dict_set (fst kv) (snd kv) acc) u d.

Definition dict_keys (d : dict) : list string := map fst d.
Definition dict_values (d : dict) : list value := map snd d.

(** [d[k][k2] = v] for a key [k] that holds a dict. *)
Definition dict_set_in (k k2 : string) (v : value) (d : dict) : dict :=
  match dict_get k d with
  | Some (VDict inner) => dict_set k (VDict (dict_set k2 v inner)) d
  | _ => d
  end.

(** [d[k].update(u)] for a key [k] that holds a dict. *)
Definition dict_update_in (k : string) (u : dict) (d : dict) : dict :=
  match dict_get k d with
  | Some (VDict inner) => dict_set k (VDict (dict_update inner u)) d
  | _ => d
  end.

(** ** Truth value testing *)

Definition is_zero_float (f : spec_float) : bool :=
  match f with
  | S754_zero _ => true
  | _ => false
  end.

Definition truthy (v : value) : bool :=
  match v with
  | VNone => false
  | VBool b => b
  | VInt z => negb (z =? 0)
  | VFloat f => negb (is_zero_float f)
  | VStr s => negb (String.eqb s "")
  | VList l => match l with [] => false | _ => true end
  | VDict kvs => match kvs with [] => false | _ => true end
  end.

(** [obj.get(k, default)]: only a dict has the method. *)
Definition get (obj : value) (k : string) (default : value) : result value :=
  match obj with
  | VDict kvs =>
      Ok match dict_get k kvs with
         | Some v => v
         | None => default
         end
  | _ => Raise AttributeError
  end.

(** ** [str] methods *)

(** [c.isdigit()] for one code point below U+0100: the decimal digits and
    the superscript digits U+00B2, U+00B3 and U+00B9, which Unicode gives
    the numeric type Digit. *)
Definition isdigit_char (c : ascii) : bool :=
  let n := N.to_nat (N_of_ascii c) in
  ((48 <=? n) && (n <=? 57))%nat
  || (n =? 178)%nat || (n =? 179)%nat || (n =? 185)%nat.

Fixpoint all_chars (p : ascii -> bool) (s : string) : bool :=
  match s with
  | EmptyString => true
  | String c r => p c && all_chars p r
  end.

(** [s.isdigit()]: every character is a digit and there is at least one. *)
Definition isdigit (s : string) : bool :=
  match s with
  | EmptyString => false
  | _ => all_chars isdigit_char s
  end.

(** [s.startswith(p)] *)
Definition startswith (p s : string) : bool := String.prefix p s.

(** [s[n:]] for [0 <= n] *)
Definition drop_str (n : nat) (s : string) : string :=
  String.substring n (String.length s - n) s.

(** ** Slicing and length *)

Definition len {A : Type} (l : list A) : Z := Z.of_nat (List.length l).

(** [l[:k]]: a negative [k] counts from the end. *)
Definition slice_to {A : Type} (k : Z) (l : list A) : list A :=
  if 0 <=? k then firstn (Z.to_nat k) l
  else firstn (List.length l - Z.to_nat (- k)) l.

(** ** [float] *)

Definition prec : Z := 53.
Definition emax : Z := 1024.

Definition float_le (x y : spec_float) : bool := SFleb x y.
Definition float_lt (x y : spec_float) : bool := SFltb x y.

(** [float(z)] for an [int]: rounded to nearest even, [OverflowError] when
    out of range. *)
Definition float_of_int (z : Z) : result spec_float :=
  match binary_normalize prec emax z 0 false with
  | S754_infinity _ => Raise OverflowError
  | f => Ok f
  end.

Definition float_inf : spec_float := S754_infinity false.

Section Float.
(** [float(s)] for a [str]; [None] stands for [ValueError]. *)
Variable float_of_str : string -> option spec_float.

(** [float(v)] *)
Definition to_float (v : value) : result spec_float :=
  match v with
  | VBool b => float_of_int (if b then 1 else 0)
  | VInt z => float_of_int z
  | VFloat f => Ok f
  | VStr s =>
      match float_of_str s with
      | Some f => Ok f
      | None => Raise ValueError
      end
  | VNone | VList _ | VDict _ => Raise TypeError
  end.
End Float.

(** ** [sorted(l, key=...)]

    The keys are computed first, from left to right, then the items are
    sorted on them with [<] only, as [list.sort] of CPython does
    ([Objects/listobject.c], releases 3.8 to 3.12).  On a list shorter
    than 64 items the whole of it is one run: [count_run] measures the
    leading run, ascending ([not (a[i] < a[i-1])] all along) or strictly
    descending ([a[i] < a[i-1]] all along, then reversed in place), and
    [binarysort] inserts the items after it one by one at the place a
    bisection with [pivot < a[p]] finds.  That is what is defined here,
    for every length.  From 64 items on CPython cuts runs of [minrun]
    items and merges them; the outcome is the same as here whenever [<]
    is a strict weak order on the keys present, that is when no key is a
    NaN, a stable sort being determined by the order.  With a NaN among
    the keys of 64 items or more the definition is not CPython's. *)
Section Sort.
Context {A : Type}.

(** The loop of [count_run]: the items that go on the run after [prev],
    and the items left. *)
Fixpoint extend_run (descending : bool) (prev : spec_float * A)
    (l : list (spec_float * A))
  : list (spec_float * A) * list (spec_float * A) :=
  match l with
  | [] => ([], [])
  | x :: r =>
      if Bool.eqb (float_lt (fst x) (fst prev)) descending then
        let (run, rest) := extend_run descending x r in (x :: run, rest)
      else ([], l)
  end.

(** [count_run], with the reversal of a descending run that follows it:
    the leading run in ascending order, and the items left. *)
Definition count_run (l : list (spec_float * A))
  : list (spec_float * A) * list (spec_float * A) :=
  match l with
  | [] => ([], [])
  | [x] => ([x], [])
  | x :: y :: r =>
      let descending := float_lt (fst y) (fst x) in
      let (run, rest) := extend_run descending y r in
      (if descending then rev (x :: y :: run) else x :: y :: run, rest)
  end.

(** The bisection of [binarysort]: [while l < r], with
    [p = l + ((r - l) >> 1)], [r = p] when [pivot < a[p]] and [l = p + 1]
    otherwise.  [fuel] bounds the number of rounds. *)
Fixpoint bisect (fuel : nat) (pivot : spec_float)
    (a : list (spec_float * A)) (l r : nat) : nat :=
  match fuel with
  | O => l
  | S fuel =>
      if (l <? r)%nat then
        let p := (l + Nat.div2 (r - l))%nat in
        match nth_error a p with
        | Some y =>
            if float_lt pivot (fst y) then bisect fuel pivot a l p
            else bisect fuel pivot a (S p) r
        | None => l
        end
      else l
  end.

(** One round of [binarysort]: [x] goes where the bisection of the sorted
    part says. *)
Definition insert_keyed (x : spec_float * A) (a : list (spec_float * A))
  : list (spec_float * A) :=
  let i := bisect (List.length a) (fst x) a 0 (List.length a) in
  (firstn i a ++ x :: skipn i a)%list.

Definition sort_keyed (l : list (spec_float * A)) : list (spec_float * A) :=
  let (run, rest) := count_run l in
  fold_left (fun acc x => insert_keyed x acc) rest run.
End Sort.

Definition sorted {A : Type} (key : A -> result spec_float) (l : list A)
  : result (list A) :=
  rbind (mapR (fun x => rbind (key x) (fun k => Ok (k, x))) l)
        (fun keyed => Ok (map snd (sort_keyed keyed))).

End Py.

(* ================================================================== *)
(** * Effects: the transport, the file system, the environment *)
(* ================================================================== *)

Module Eff.
Import Py.

(** What [requests.get] hands back: [resp.status_code], [resp.url] and the
    outcome of [resp.json()]. *)
Record response : Type := mkResponse {
  status_code : Z;
  url : string;
  json : result value
}.

(** What the program does to the outside, newest first in a log. *)
Inductive event : Type :=
| EvGet (target : string) (params : dict)
| EvWrite (dir : string) (doc : value).

Section World.
Variable world : Type.

Definition state : Type := (world * list event)%type.

Definition M (A : Type) : Type := state -> result A * state.

Definition ret {A : Type} (a : A) : M A := fun s => (Ok a, s).

Definition raise {A : Type} (e : exn) : M A := fun s => (Raise e, s).

Definition bind {A B : Type} (m : M A) (k : A -> M B) : M B :=
  fun s =>
    match m s with
    | (Ok a, s') => k a s'
    | (Raise e, s') => (Raise e, s')
    end.

Definition lift {A : Type} (r : result A) : M A := fun s => (r, s).
End World.

Arguments ret {world A} a.
Arguments raise {world A} e.
Arguments bind {world A B} m k.
Arguments lift {world A} r.

End Eff.

Declare Scope eff_scope.
Delimit Scope eff_scope with eff.
Notation "x <- m ;; k" := (Eff.bind m (fun x => k))
  (at level 61, m at next level, right associativity) : eff_scope.

(* ================================================================== *)
(** * utils.py *)
(* ================================================================== *)

Module Utils.
Import Py Eff.

(** [validate_efo_id]: returns [None] or raises [ValueError]. *)
Definition validate_efo_id (efo_id : value) : result unit :=
  match efo_id with
  | VStr s =>
      if negb (startswith "EFO_" s) || negb (isdigit (drop_str 4 s))
      then Raise ValueError
      else Ok tt
  | _ => Raise ValueError
  end.

(** [_remove_links]: the dict comprehension walks the items in order,
    skips the key ["_links"] and recurses into the values it keeps. *)
Fixpoint _remove_links (obj : value) : value :=
  match obj with
  | VDict kvs =>
      VDict
        ((fix items (kvs : dict) : dict :=
            match kvs with
            | [] => []
            | (k, v) :: r =>
                if String.eqb k "_links" then items r
                else (k, _remove_links v) :: items r
            end) kvs)
  | VList l => VList (map _remove_links l)
  | _ => obj
  end.

(** The comprehension of [_remove_links] on its own. *)
Fixpoint remove_links_items (kvs : dict) : dict :=
  match kvs with
  | [] => []
  | (k, v) :: r =>
      if String.eqb k "_links" then remove_links_items r
      else (k, _remove_links v) :: remove_links_items r
  end.

(** [create_empty_response] *)
Definition create_empty_response (request_url : string)
    (max_items_in_memory : Z) (return_only_sig : bool) : dict :=
  [ ("request_url", VStr request_url);
    ("items", VList []);
    ("total_count", VInt 0);
    ("is_complete", VBool true);
    ("metadata",
      VDict [ ("subset_size", VInt 0);
              ("max_items_in_memory", VInt max_items_in_memory);
              ("return_only_sig", VBool return_only_sig) ]) ].

Section Effects.
Variable world : Type.
(** [os.environ.get(name)] *)
Variable environ_get : string -> world -> option string.
(** The body of the [try] in [write_large_result_to_file]: make the
    directory, pick a fresh file name, dump the document; the path
    written, or the exception raised on the way, an [OSError] or another
    one ([os.makedirs] raises [ValueError] on a directory name with a
    null character in it), with the world as the attempt leaves it. *)
Variable dump_json : string -> value -> world -> result string * world.

(** [get_default_output_dir] *)
Definition get_default_output_dir : M world string :=
  fun s =>
    (Ok match environ_get "TEST_OUTPUT_SUCCESS_DIR" (fst s) with
        | Some d => d
        | None => "/tmp"
        end, s).

(** [write_large_result_to_file]: the handler catches [OSError] only and
    raises an [OSError] in its place; any other exception leaves the
    function as it is. *)
Definition write_large_result_to_file (output_dir resp_url : string)
    (items : list value) : M world string :=
  fun s =>
    let doc := VDict [("request_url", VStr resp_url); ("items", VList items)] in
    let (r, w') := dump_json output_dir doc (fst s) in
    (match r with
     | Ok fpath => Ok fpath
     | Raise OSError => Raise OSError
     | Raise e => Raise e
     end, (w', EvWrite output_dir doc :: snd s)).
End Effects.

End Utils.

(* ================================================================== *)
(** * server.py *)
(* ================================================================== *)

Module Server.
Import Py Eff Utils.

Definition BASE_URL : string := "https://www.ebi.ac.uk/gwas/rest/api".
Definition SUCCESS_STATUS_CODE : Z := 200.
Definition GWAS_API_PAGE_SIZE : Z := 1000.

(** [5e-8], the binary64 number nearest to 5/10^8. *)
Definition GWAS_THRESHOLD : spec_float :=
  S754_finite false 7555786372591432 (-77).

(** [_extract_embedded_items] *)
Definition _extract_embedded_items (data : value) (key : string) : list value :=
  match data with
  | VDict d =>
      let embedded :=
        match dict_get "_embedded" d with Some v => v | None => VDict [] end in
      match embedded with
      | VDict e =>
          let items :=
            match dict_get key e with Some v => v | None => VList [] end in
          match items with
          | VDict kvs =>
              if forallb isdigit (dict_keys kvs) then dict_values kvs else []
          | VList l => l
          | _ => []
          end
      | _ => []
      end
  | _ => []
  end.

(** [item[k] = v] *)
Definition setitem (item : value) (k : string) (v : value) : result value :=
  match item with
  | VDict kvs => Ok (VDict (dict_set k v kvs))
  | _ => Raise TypeError
  end.

Section Program.
Variable world : Type.
Variable environ_get : string -> world -> option string.
Variable dump_json : string -> value -> world -> result string * world.
(** [float(s)] on a [str]. *)
Variable float_of_str : string -> option spec_float.
(** [requests.get(url, params=params)] *)
Variable http_get : string -> dict -> world -> result response * world.

Local Open Scope eff_scope.

Definition requests_get (target : string) (params : dict) : M world response :=
  fun s =>
    let (r, w') := http_get target params (fst s) in
    (r, (w', EvGet target params :: snd s)).

(** The body of the loop of [_add_gwas_significance]: the [try] block,
    then the handler for [ValueError] and [TypeError]. *)
Definition annotate_item (item : value) : result value :=
  let attempt :=
    rbind (get item "pvalue" VNone) (fun a =>
    rbind (if truthy a then Ok a else get item "p_value" VNone) (fun p_str =>
      match p_str with
      | VNone => setitem item "is_gwas_significant" VNone
      | _ =>
          rbind (to_float float_of_str p_str) (fun p =>
            setitem item "is_gwas_significant"
              (VBool (float_le p GWAS_THRESHOLD)))
      end)) in
  match attempt with
  | Ok item' => Ok item'
  | Raise ValueError | Raise TypeError =>
      setitem item "is_gwas_significant" VNone
  | Raise e => Raise e
  end.

(** [_add_gwas_significance]: the items as the loop leaves them. *)
Definition _add_gwas_significance (items : list value) : result (list value) :=
  match items with
  | [] => Ok items
  | _ => mapR annotate_item items
  end.

(** [item.get("is_gwas_significant", False)] as a condition. *)
Definition flagged (item : value) : result bool :=
  rbind (get item "is_gwas_significant" (VBool false))
        (fun v => Ok (truthy v)).

(** Lines 165 to 190 of [_process_api_response]: the size decision. *)
Definition handle_large_results (items : list value) (metadata : dict)
    (request_url : string) (max_items_in_memory : Z)
    (output_dir : option string) (force_to_file force_no_file : bool)
  : M world dict :=
  let total_items_aft_process := len items in
  if ((total_items_aft_process >? max_items_in_memory) && negb force_no_file)
     || force_to_file
  then
    dir <- match output_dir with
           | Some d => if truthy (VStr d) then ret d
                       else get_default_output_dir world environ_get
           | None => get_default_output_dir world environ_get
           end ;;
    output_file <-
      write_large_result_to_file world dump_json dir request_url items ;;
    let metadata :=
      dict_set "subset_size"
        (VInt (len (slice_to max_items_in_memory items))) metadata in
    let metadata := dict_set "output_file" (VStr output_file) metadata in
    ret [ ("request_url", VStr request_url);
          ("items", VList (slice_to max_items_in_memory items));
          ("total_items_aft_process", VInt total_items_aft_process);
          ("is_complete", VBool false);
          ("metadata", VDict metadata) ]
  else
    let metadata :=
      dict_set "subset_size" (VInt total_items_aft_process) metadata in
    ret [ ("request_url", VStr request_url);
          ("items", VList items);
          ("total_items_aft_process", VInt total_items_aft_process);
          ("is_complete", VBool true);
          ("metadata", VDict metadata) ].

(** Lines 137 to 163 of [_process_api_response], for a non-empty list:
    annotation, counting, filtering and link removal.  The outcome is an
    envelope returned early, or the surviving items with the metadata
    gathered so far. *)
Definition select_items (items : list value) (request_url : string)
    (max_items_in_memory : Z) (return_only_sig remove_links : bool)
    (skip_gwas_significance : bool)
  : result (dict + list value * dict) :=
  let total_items := len items in
  let metadata :=
    [ ("subset_size", VInt 0);
      ("max_items_in_memory", VInt max_items_in_memory) ] in
  let strip (items : list value) : list value :=
    if remove_links then
      match _remove_links (VList items) with
      | VList l => l
      | _ => items
      end
    else items in
  if negb skip_gwas_significance then
    rbind (_add_gwas_significance items) (fun items =>
    rbind (filterR flagged items) (fun sig =>
      let sig_count := len sig in
      let metadata :=
        dict_update metadata
          [ ("return_only_sig", VBool return_only_sig);
            ("total_items", VInt total_items);
            ("significant_items", VInt sig_count) ] in
      if return_only_sig then
        rbind (filterR flagged items) (fun items =>
          match items with
          | [] =>
              let empty_resp :=
                create_empty_response request_url max_items_in_memory
                  return_only_sig in
              Ok (inl (dict_update_in "metadata" metadata empty_resp))
          | _ => Ok (inr (strip items, metadata))
          end)
      else Ok (inr (strip items, metadata))))
  else Ok (inr (strip items, metadata)).

(** [_process_api_response] *)
Definition _process_api_response (items : list value) (request_url : string)
    (max_items_in_memory : Z) (return_only_sig remove_links : bool)
    (output_dir : option string)
    (force_to_file force_no_file skip_gwas_significance : bool)
  : M world dict :=
  match items with
  | [] =>
      let empty_resp :=
        create_empty_response request_url max_items_in_memory
          return_only_sig in
      ret (if negb skip_gwas_significance
           then dict_set_in "metadata" "significant_items" (VInt 0)
                  (dict_set_in "metadata" "total_items" (VInt 0) empty_resp)
           else empty_resp)
  | _ =>
      sel <- lift (select_items items request_url max_items_in_memory
                     return_only_sig remove_links skip_gwas_significance) ;;
      match sel with
      | inl empty_resp => ret empty_resp
      | inr (items, metadata) =>
          handle_large_results items metadata request_url
            max_items_in_memory output_dir force_to_file force_no_file
      end
  end.

(** The tail shared by the list operations once the response is in:
    [items = _extract_embedded_items(resp.json(), key)] and the call of
    [_process_api_response]. *)
Definition extract_and_process (resp : response) (key : string)
    (max_items_in_memory : Z) (return_only_sig remove_links : bool)
    (output_dir : option string)
    (force_to_file force_no_file skip_gwas_significance : bool)
  : M world dict :=
  body <- lift (json resp) ;;
  _process_api_response (_extract_embedded_items body key) (url resp)
    max_items_in_memory return_only_sig remove_links output_dir
    force_to_file force_no_file skip_gwas_significance.

(** [search_variants_in_region]; [efo_id] is [None] when not given. *)
Definition search_variants_in_region (chromosome : string) (start end_ : Z)
    (efo_id : option string) (return_only_sig : bool)
    (max_items_in_memory : Z) (force_to_file : bool)
    (output_dir : option string) (force_no_file remove_links : bool)
  : M world dict :=
  let params :=
    [ ("size", VInt GWAS_API_PAGE_SIZE); ("chromosome", VStr chromosome);
      ("bp_start", VInt start); ("bp_end", VInt end_) ] in
  params <-
    match efo_id with
    | Some id =>
        if truthy (VStr id) then
          _ <- lift (validate_efo_id (VStr id)) ;;
          ret (dict_set "efoTrait" (VStr id) params)
        else ret params
    | None => ret params
    end ;;
  resp <- requests_get (BASE_URL ++ "/associations") params ;;
  if negb (status_code resp =? SUCCESS_STATUS_CODE) then
    ret (create_empty_response (url resp) max_items_in_memory return_only_sig)
  else
    extract_and_process resp "associations" max_items_in_memory
      return_only_sig remove_links output_dir force_to_file force_no_file
      false.

(** The second loop of [get_variants_from_efo_ids]. *)
Fixpoint fetch_each (efo_ids : list string) (results : dict)
    (return_only_sig : bool) (max_items_in_memory : Z) (force_to_file : bool)
    (output_dir : option string) (force_no_file remove_links : bool)
  : M world dict :=
  match efo_ids with
  | [] => ret results
  | efo_id :: rest =>
      resp <- requests_get (BASE_URL ++ "/associations")
                [ ("efoTrait", VStr efo_id);
                  ("size", VInt GWAS_API_PAGE_SIZE) ] ;;
      entry <-
        (if negb (status_code resp =? SUCCESS_STATUS_CODE) then
           ret (create_empty_response (url resp) max_items_in_memory
                  return_only_sig)
         else
           extract_and_process resp "associations" max_items_in_memory
             return_only_sig remove_links output_dir force_to_file
             force_no_file false) ;;
      fetch_each rest (dict_set efo_id (VDict entry) results)
        return_only_sig max_items_in_memory force_to_file output_dir
        force_no_file remove_links
  end.

(** [get_variants_from_efo_ids] *)
Definition get_variants_from_efo_ids (efo_ids : list string)
    (return_only_sig : bool) (max_items_in_memory : Z) (force_to_file : bool)
    (output_dir : option string) (force_no_file remove_links : bool)
  : M world dict :=
  _ <- lift (mapR (fun efo_id => validate_efo_id (VStr efo_id)) efo_ids) ;;
  fetch_each efo_ids [] return_only_sig max_items_in_memory force_to_file
    output_dir force_no_file remove_links.

(** [v.get("pvalue")] as a condition. *)
Definition has_pvalue (v : value) : result bool :=
  rbind (get v "pvalue" VNone) (fun p => Ok (truthy p)).

(** [float(x.get("pvalue", float("inf")))] *)
Definition pvalue_key (x : value) : result spec_float :=
  rbind (get x "pvalue" (VFloat float_inf)) (to_float float_of_str).

(** Line 407 of [trait_variant_ranking]. *)
Definition rank_items (items : list value) (top_n : Z) : result (list value) :=
  rbind (filterR has_pvalue items) (fun kept =>
  rbind (sorted pvalue_key kept) (fun ordered =>
    Ok (slice_to top_n ordered))).

(** [trait_variant_ranking] *)
Definition trait_variant_ranking (efo_id : string) (top_n : Z)
    (return_only_sig : bool) (max_items_in_memory : Z) (force_to_file : bool)
    (output_dir : option string) (force_no_file remove_links : bool)
  : M world dict :=
  _ <- lift (validate_efo_id (VStr efo_id)) ;;
  resp <- requests_get (BASE_URL ++ "/associations")
            [ ("efoTrait", VStr efo_id); ("size", VInt GWAS_API_PAGE_SIZE) ] ;;
  if negb (status_code resp =? SUCCESS_STATUS_CODE) then
    ret (create_empty_response (url resp) max_items_in_memory return_only_sig)
  else
    body <- lift (json resp) ;;
    let items := _extract_embedded_items body "associations" in
    match items with
    | [] =>
        ret (create_empty_response (url resp) max_items_in_memory
               return_only_sig)
    | _ =>
        sorted_items <- lift (rank_items items top_n) ;;
        _process_api_response sorted_items (url resp) max_items_in_memory
          return_only_sig remove_links output_dir force_to_file
          force_no_file false
    end.

(** [get_trait_studies] *)
Definition get_trait_studies (efoId : string) (max_items_in_memory : Z)
    (force_to_file : bool) (output_dir : option string)
    (force_no_file remove_links : bool)
  : M world dict :=
  resp <- requests_get (BASE_URL ++ "/efoTraits/" ++ efoId ++ "/studies") [] ;;
  if negb (status_code resp =? SUCCESS_STATUS_CODE) then
    ret (create_empty_response (url resp) max_items_in_memory false)
  else
    extract_and_process resp "studies" max_items_in_memory false
      remove_links output_dir force_to_file force_no_file true.

(** [get_trait_associations] *)
Definition get_trait_associations (efoId : string) (return_only_sig : bool)
    (max_items_in_memory : Z) (force_to_file : bool)
    (output_dir : option string) (force_no_file remove_links : bool)
  : M world dict :=
  resp <- requests_get
            (BASE_URL ++ "/efoTraits/" ++ efoId ++ "/associations") [] ;;
  if negb (status_code resp =? SUCCESS_STATUS_CODE) then
    ret (create_empty_response (url resp) max_items_in_memory return_only_sig)
  else
    extract_and_process resp "associations" max_items_in_memory
      return_only_sig remove_links output_dir force_to_file force_no_file
      false.

(** [get_region_trait_associations] *)
Definition get_region_trait_associations (chromosome : string)
    (start end_ : Z) (efo_id : string) (return_only_sig : bool)
    (max_items_in_memory : Z) (force_to_file : bool)
    (output_dir : option string) (force_no_file remove_links : bool)
  : M world dict :=
  _ <- lift (validate_efo_id (VStr efo_id)) ;;
  let summary_stats_base_url :=
    "https://www.ebi.ac.uk/gwas/summary-statistics/api" in
  let target :=
    summary_stats_base_url ++ "/chromosomes/" ++ chromosome
      ++ "/associations" in
  let params :=
    [ ("bp_lower", VInt start); ("bp_upper", VInt end_);
      ("efoTrait", VStr efo_id) ] in
  resp <- requests_get target params ;;
  if negb (status_code resp =? 200) then
    ret (create_empty_response (url resp) max_items_in_memory return_only_sig)
  else
    extract_and_process resp "associations" max_items_in_memory
      return_only_sig remove_links output_dir force_to_file force_no_file
      false.

End Program.

End Server.

(* ================================================================== *)
(** * A concrete outside world, for running the program *)
(* ================================================================== *)

Module Demo.
Import Py Eff Utils Server.

(** The superscript two, U+00B2. *)
Definition superscript_two : string := String (ascii_of_nat 178) "".

(** A world with nothing in it: the environment variable is unset, every
    write succeeds, and the upstream answers every request with the same
    status and body. *)
Definition world : Type := unit.

Definition environ_get (name : string) (w : world) : option string := None.

Definition dump_json (dir : string) (doc : value) (w : world)
  : result string * world :=
  (Ok (dir ++ "/large_result_0.json"), w).

Definition upstream (status : Z) (body : value)
    (target : string) (params : dict) (w : world)
  : result response * world :=
  (Ok (mkResponse status target (Ok body)), w).

(** ** Decimal literals

    [float] on the literals [digits[.digits][e[-]digits]], rounded to the
    nearest binary64 number; any other string is refused. *)

Definition digit_val (c : ascii) : option Z :=
  let n := Z.of_N (N_of_ascii c) in
  if (48 <=? n) && (n <=? 57) then Some (n - 48) else None.

(** Reads digits into the accumulator; the number read, how many digits,
    and the rest of the string. *)
Fixpoint read_digits (s : string) (acc : Z) (count : Z) : Z * Z * string :=
  match s with
  | String c r =>
      match digit_val c with
      | Some d => read_digits r (10 * acc + d) (count + 1)
      | None => (acc, count, s)
      end
  | EmptyString => (acc, count, s)
  end.

(** [m * 10 ^ e] as a float. *)
Definition scale10 (m e : Z) : spec_float :=
  if 0 <=? e then binary_normalize prec emax (m * 10 ^ e) 0 false
  else
    match m with
    | Zpos p => SFdiv prec emax (S754_finite false p 0)
                  (S754_finite false (Z.to_pos (10 ^ (- e))) 0)
    | _ => S754_zero false
    end.

Definition float_of_str (s : string) : option spec_float :=
  let '(int_part, n_int, rest) := read_digits s 0 0 in
  if n_int =? 0 then None
  else
    let '(mant, n_frac, rest) :=
      match rest with
      | String "." r => read_digits r int_part 0
      | _ => (int_part, 0, rest)
      end in
    match rest with
    | EmptyString => Some (scale10 mant (- n_frac))
    | String "e" (String "-" r) =>
        let '(ex, n_ex, rest) := read_digits r 0 0 in
        match rest with
        | EmptyString =>
            if n_ex =? 0 then None else Some (scale10 mant (- ex - n_frac))
        | _ => None
        end
    | String "e" r =>
        let '(ex, n_ex, rest) := read_digits r 0 0 in
        match rest with
        | EmptyString =>
            if n_ex =? 0 then None else Some (scale10 mant (ex - n_frac))
        | _ => None
        end
    | _ => None
    end.

Definition start : state world := (tt, []).

(** The program in this world. *)
Definition process :=
  _process_api_response world environ_get dump_json float_of_str.

Definition ranking (body : value) :=
  trait_variant_ranking world environ_get dump_json float_of_str
    (upstream 200 body).

Definition trait_studies (body : value) :=
  get_trait_studies world environ_get dump_json float_of_str
    (upstream 200 body).

(** [{"_embedded": {key: items}}] *)
Definition embedded_body (key : string) (items : value) : value :=
  VDict [("_embedded", VDict [(key, items)])].

(** [{"pvalue": p}] *)
Definition with_pvalue (p : value) : value := VDict [("pvalue", p)].

(** The records of the extractor scenario of the spec. *)
Definition scenario_items : list value :=
  [with_pvalue (VStr "1e-10"); with_pvalue (VStr "0.5")].

(** The records of the ranking scenario of the spec. *)
Definition ranking_items : list value :=
  [with_pvalue (VStr "0.01"); with_pvalue (VStr "1e-9");
   with_pvalue (VStr "1e-7")].

End Demo.

(* ================================================================== *)
(** * Reading an envelope *)
(* ================================================================== *)

Module Envelope.
Import Py.



(** [env["items"]] *)
Definition items (env : dict) : list value :=
  match dict_get "items" env with
  | Some (VList l) => l
  | _ => []
  end.

(** [env["total_items_aft_process"]], or [env["total_count"]] in the
    empty-result shape. *)
Definition total (env : dict) : option Z :=
  match dict_get "total_items_aft_process" env with
  | Some (VInt n) => Some n
  | _ =>
      match dict_get "total_count" env with
      | Some (VInt n) => Some n
      | _ => None
      end
  end.


(** [item["is_gwas_significant"] == True] *)
Definition is_significant (item : value) : bool :=
  match item with
  | VDict kvs =>
      match dict_get "is_gwas_significant" kvs with
      | Some (VBool true) => true
      | _ => false
      end
  | _ => false
  end.

(** [item.get("pvalue")] is falsy: absent, [None], [0], [""] and the like. *)
Definition pvalue_falsy (item : value) : bool :=
  match item with
  | VDict kvs =>
      match dict_get "pvalue" kvs with
      | Some v => negb (truthy v)
      | None => true
      end
  | _ => false
  end.

(** The log gained exactly one write, of this document into this
    directory, and nothing else. *)
Definition wrote (dir : string) (doc : value) (before after : list Eff.event)
  : Prop :=
  after = Eff.EvWrite dir doc :: before.

(** Neither a list nor a dict. *)
Definition is_container (v : value) : bool :=
  match v with
  | VList _ | VDict _ => true
  | _ => false
  end.

(** A string of one or more of the characters [0] to [9]. *)
Definition decimal_digits (s : string) : bool :=
  match s with
  | EmptyString => false
  | _ => all_chars (fun c => match Demo.digit_val c with
                             | Some _ => true
                             | None => false
                             end) s
  end.

Definition is_dict (v : value) : bool :=
  match v with
  | VDict _ => true
  | _ => false
  end.



(** What link removal, when asked for, makes of an item. *)
Definition stripped (remove_links : bool) (item : value) : value :=
  if remove_links then Utils._remove_links item else item.

Definition not_nan (f : spec_float) : bool :=
  match f with
  | S754_nan => false
  | _ => true
  end.




End Envelope.

(* ================================================================== *)
(** * server.py: the single-object lookups and the other list operations *)
(* ================================================================== *)

Module Lookups.
Import Py Eff Utils Server.

(** [if isinstance(data, dict) and "error" not in data: data[field] = id],
    the tail of [get_association] and [get_trait]. *)
Definition echo_identifier (field id : string) (data : value) : value :=
  match data with
  | VDict d =>
      match dict_get "error" d with
      | None => VDict (dict_set field (VStr id) d)
      | Some _ => data
      end
  | _ => data
  end.

Section Program.
Variable world : Type.
Variable environ_get : string -> world -> option string.
Variable dump_json : string -> value -> world -> result string * world.
Variable float_of_str : string -> option spec_float.
Variable http_get : string -> dict -> world -> result response * world.
(** [resp.text] *)
Variable response_text : response -> string.
(** [int(time.time() * MILLISECONDS)] *)
Variable now_ms : world -> Z.

Local Open Scope eff_scope.

(** [format_error] of [utils.py]: [except Exception] catches whatever
    [resp.json()] raises; the three assignments raise [TypeError] when the
    body is JSON but no object. *)
Definition format_error (resp : response) : M world value :=
  fun s =>
    let err :=
      match json resp with
      | Ok v => v
      | Raise _ =>
          VDict [ ("error", VStr "Invalid JSON");
                  ("message", VStr (response_text resp)) ]
      end in
    (rbind (setitem err "status" (VInt (status_code resp))) (fun err =>
     rbind (setitem err "request_url" (VStr (url resp))) (fun err =>
     setitem err "timestamp" (VInt (now_ms (fst s))))), s).

(** [_get_object] *)
Definition _get_object (path : string) (remove_links : bool) : M world value :=
  resp <- requests_get world http_get (BASE_URL ++ "/" ++ path) [] ;;
  if status_code resp =? SUCCESS_STATUS_CODE then
    data <- lift (json resp) ;;
    let data :=
      match data with
      | VDict d =>
          VDict (dict_set "request_url" (VStr (url resp))
                   (dict_set "status" (VInt (status_code resp)) d))
      | _ => data
      end in
    ret (if remove_links then _remove_links data else data)
  else format_error resp.

(** [get_study] *)
Definition get_study (studyId : string) (remove_links : bool) : M world value :=
  _get_object ("studies/" ++ studyId) remove_links.

(** [get_association] *)
Definition get_association (associationId : string) (remove_links : bool)
  : M world value :=
  data <- _get_object ("associations/" ++ associationId) remove_links ;;
  ret (echo_identifier "association_id" associationId data).

(** [get_variant] *)
Definition get_variant (variantId : string) (remove_links : bool)
  : M world value :=
  _get_object ("singleNucleotidePolymorphisms/" ++ variantId) remove_links.

(** [get_trait] *)
Definition get_trait (efoId : string) (remove_links : bool) : M world value :=
  data <- _get_object ("efoTraits/" ++ efoId) remove_links ;;
  ret (echo_identifier "trait_id" efoId data).

(** [get_study_associations] *)
Definition get_study_associations (studyId : string) (return_only_sig : bool)
    (max_items_in_memory : Z) (force_to_file : bool)
    (output_dir : option string) (force_no_file remove_links : bool)
  : M world dict :=
  resp <- requests_get world http_get
            (BASE_URL ++ "/studies/" ++ studyId ++ "/associations") [] ;;
  if negb (status_code resp =? SUCCESS_STATUS_CODE) then
    ret (create_empty_response (url resp) max_items_in_memory return_only_sig)
  else
    extract_and_process world environ_get dump_json float_of_str resp
      "associations" max_items_in_memory return_only_sig remove_links
      output_dir force_to_file force_no_file false.

(** [get_associations_from_variant]; [variantId] is [None] when not
    given. *)
Definition get_associations_from_variant (variantId : option string)
    (return_only_sig : bool) (max_items_in_memory : Z) (force_to_file : bool)
    (output_dir : option string) (force_no_file remove_links : bool)
  : M world dict :=
  let given :=
    match variantId with
    | Some v => VStr v
    | None => VNone
    end in
  if negb (truthy given) then
    ret [ ("error",
            VStr "Variant ID is required. Please provide a valid variant ID (e.g., 'rs10875231').");
          ("function", VStr "get_associations_from_variant");
          ("args", VDict [("variantId", given)]) ]
  else
    let target :=
      BASE_URL ++ "/singleNucleotidePolymorphisms/"
        ++ match variantId with Some v => v | None => "" end
        ++ "/associations" in
    resp <- requests_get world http_get target [] ;;
    if negb (status_code resp =? SUCCESS_STATUS_CODE) then
      ret (create_empty_response (url resp) max_items_in_memory
             return_only_sig)
    else
      extract_and_process world environ_get dump_json float_of_str resp
        "associations" max_items_in_memory return_only_sig remove_links
        output_dir force_to_file force_no_file false.

End Program.

End Lookups.

(* ================================================================== *)
(** * More to read off values, envelopes and logs *)
(* ================================================================== *)

Module Reading.
Import Py Eff.

(** No dict anywhere in the value has the key ["_links"]. *)
Fixpoint links_free (v : value) : bool :=
  match v with
  | VDict kvs =>
      (fix entries (kvs : dict) : bool :=
         match kvs with
         | [] => true
         | (k, x) :: r =>
             negb (String.eqb k "_links") && links_free x && entries r
         end) kvs
  | VList l => forallb links_free l
  | _ => true
  end.

(** The same for the entries of a dict. *)
Fixpoint links_free_items (kvs : dict) : bool :=
  match kvs with
  | [] => true
  | (k, x) :: r =>
      negb (String.eqb k "_links") && links_free x && links_free_items r
  end.

(** [item.get('pvalue') or item.get('p_value')] for an item that is the
    dict [d]. *)
Definition chosen_pvalue (d : dict) : value :=
  let a := match dict_get "pvalue" d with Some v => v | None => VNone end in
  if truthy a then a
  else match dict_get "p_value" d with Some v => v | None => VNone end.

Definition is_none (v : value) : bool :=
  match v with
  | VNone => true
  | _ => false
  end.

(** [env["metadata"][k]] *)
Definition metadata_get (k : string) (env : dict) : option value :=
  match dict_get "metadata" env with
  | Some (VDict md) => dict_get k md
  | _ => None
  end.

(** How many requests, and how many file writes, a log holds. *)
Definition count_gets (log : list event) : nat :=
  List.length (filter (fun e => match e with EvGet _ _ => true | _ => false end) log).

Definition count_writes (log : list event) : nat :=
  List.length (filter (fun e => match e with EvWrite _ _ => true | _ => false end) log).

(** [k in v] for a value that is a dict. *)
Definition has_key (k : string) (v : value) : bool :=
  match v with
  | VDict d => match dict_get k d with Some _ => true | None => false end
  | _ => false
  end.

(** [v[k]] for a value that is a dict. *)
Definition field (k : string) (v : value) : option value :=
  match v with
  | VDict d => dict_get k d
  | _ => None
  end.

End Reading.

(* ================================================================== *)
(** * More of the concrete outside world *)
(* ================================================================== *)

Module Samples.
Import Py Eff Utils Server Lookups.


(** An upstream whose body is no JSON. *)
Definition upstream_text (status : Z)
    (target : string) (params : dict) (w : Demo.world)
  : result response * Demo.world :=
  (Ok (mkResponse status target (Raise ValueError)), w).

Definition response_text (resp : response) : string := "Not Found".

Definition now_ms (w : Demo.world) : Z := 1700000000000.

Definition lookup (http : string -> dict -> Demo.world -> result response * Demo.world) :=
  _get_object Demo.world http response_text now_ms.

Definition trait (http : string -> dict -> Demo.world -> result response * Demo.world) :=
  get_trait Demo.world http response_text now_ms.

Definition batch (body : value) :=
  get_variants_from_efo_ids Demo.world Demo.environ_get Demo.dump_json
    Demo.float_of_str (Demo.upstream 200 body).

Definition study_associations (status : Z) (body : value) :=
  get_study_associations Demo.world Demo.environ_get Demo.dump_json
    Demo.float_of_str (Demo.upstream status body).

(** A record with navigation links at two depths. *)
Definition linked_items : list value :=
  [VDict [("variant", VStr "rs1");
          ("_links", VDict [("self", VStr "u")]);
          ("loci", VList [VDict [("_links", VNone)]])]].

End Samples.

(* ================================================================== *)
(** * Properties of the Python layer *)
(* ================================================================== *)

Module PyFacts.
Import Py.

Lemma rbind_ok {A B : Type} (r : result A) (k : A -> result B) (b : B) :
  rbind r k = Ok b -> exists a, r = Ok a /\ k a = Ok b.
Proof.
  destruct r as [a | e]; simpl; intros H.
  - exists a; split; [reflexivity | exact H].
  - discriminate H.
Qed.

Lemma mapR_length {A B : Type} (f : A -> result B) (l : list A) (l' : list B) :
  mapR f l = Ok l' -> List.length l' = List.length l.
Proof.
  revert l'; induction l as [| x r IH]; simpl; intros l' H.
  - inversion H; reflexivity.
  - apply rbind_ok in H as (y & _ & H).
    apply rbind_ok in H as (ys & Hys & H).
    inversion H; subst; simpl; f_equal; apply IH; exact Hys.
Qed.

(** Every element of the result of [mapR] is the image of an element of
    the argument. *)
Lemma mapR_in {A B : Type} (f : A -> result B) (l : list A) (l' : list B) :
  mapR f l = Ok l' -> forall y, In y l' -> exists x, In x l /\ f x = Ok y.
Proof.
  revert l'; induction l as [| x r IH]; simpl; intros l' H y Hy.
  - inversion H; subst; destruct Hy.
  - apply rbind_ok in H as (y0 & Hy0 & H).
    apply rbind_ok in H as (ys & Hys & H).
    inversion H; subst; destruct Hy as [<- | Hy].
    + exists x; split; [left; reflexivity | exact Hy0].
    + destruct (IH ys Hys y Hy) as (x' & Hin & Hf).
      exists x'; split; [right; exact Hin | exact Hf].
Qed.

(** What [filterR] keeps was there and passed the test. *)
Lemma filterR_in {A : Type} (p : A -> result bool) (l l' : list A) :
  filterR p l = Ok l' -> forall x, In x l' -> In x l /\ p x = Ok true.
Proof.
  revert l'; induction l as [| a r IH]; simpl; intros l' H x Hx.
  - inversion H; subst; destruct Hx.
  - apply rbind_ok in H as (b & Hb & H).
    apply rbind_ok in H as (ys & Hys & H).
    inversion H; subst; clear H.
    destruct b.
    + destruct Hx as [<- | Hx].
      * split; [left; reflexivity | exact Hb].
      * destruct (IH ys Hys x Hx) as [Hin Hp].
        split; [right; exact Hin | exact Hp].
    + destruct (IH ys Hys x Hx) as [Hin Hp].
      split; [right; exact Hin | exact Hp].
Qed.

Lemma dict_get_set_same (k : string) (v : value) (d : dict) :
  dict_get k (dict_set k v d) = Some v.
Proof.
  induction d as [| [k' v'] r IH]; simpl.
  - rewrite String.eqb_refl; reflexivity.
  - destruct (String.eqb k' k) eqn:E; simpl; rewrite E; [reflexivity | exact IH].
Qed.

Lemma dict_get_set_other (k k2 : string) (v : value) (d : dict) :
  k2 <> k -> dict_get k (dict_set k2 v d) = dict_get k d.
Proof.
  intros Hne; induction d as [| [k' v'] r IH]; simpl.
  - destruct (String.eqb_spec k2 k); [contradiction | reflexivity].
  - destruct (String.eqb_spec k' k2) as [-> | Hk]; simpl.
    + destruct (String.eqb_spec k2 k); [contradiction | reflexivity].
    + destruct (String.eqb k' k); [reflexivity | exact IH].
Qed.

Lemma len_nonneg {A : Type} (l : list A) : 0 <= len l.
Proof. unfold len; lia. Qed.

(** A slice is a prefix. *)
Lemma slice_to_firstn {A : Type} (k : Z) (l : list A) :
  exists n, slice_to k l = firstn n l.
Proof.
  unfold slice_to; destruct (0 <=? k); eexists; reflexivity.
Qed.

Lemma slice_to_nonneg {A : Type} (k : Z) (l : list A) :
  0 <= k -> slice_to k l = firstn (Z.to_nat k) l.
Proof.
  intros Hk; unfold slice_to.
  destruct (Z.leb_spec 0 k); [reflexivity | lia].
Qed.

Lemma slice_to_in {A : Type} (k : Z) (l : list A) (x : A) :
  In x (slice_to k l) -> In x l.
Proof.
  destruct (slice_to_firstn k l) as [n ->]; intros Hx.
  rewrite <- (firstn_skipn n l); apply in_or_app; left; exact Hx.
Qed.


Lemma slice_to_all {A : Type} (k : Z) (l : list A) :
  len l <= k -> slice_to k l = l.
Proof.
  intros Hk; unfold len in Hk; rewrite slice_to_nonneg by lia.
  apply firstn_all2; lia.
Qed.

End PyFacts.

(* ================================================================== *)
(** * Properties of utils.py *)
(* ================================================================== *)

Module UtilsFacts.
Import Py Eff Utils Envelope.

Lemma remove_links_dict (kvs : dict) :
  _remove_links (VDict kvs) = VDict (remove_links_items kvs).
Proof. reflexivity. Qed.

Lemma remove_links_items_idem (kvs : dict) :
  Forall (fun kv => _remove_links (_remove_links (snd kv)) = _remove_links (snd kv)) kvs ->
  remove_links_items (remove_links_items kvs) = remove_links_items kvs.
Proof.
  induction 1 as [| [k v] r Hv _ IH]; simpl; [reflexivity |].
  destruct (String.eqb k "_links") eqn:E; [exact IH |].
  simpl in *; rewrite E, Hv, IH; reflexivity.
Qed.

Lemma remove_links_idem (v : value) :
  _remove_links (_remove_links v) = _remove_links v.
Proof.
  induction v as [| b | z | f | s | l IH | kvs IH] using value_deep_ind;
    try reflexivity.
  - simpl; f_equal; rewrite map_map.
    induction IH as [| x r Hx _ IHr]; simpl; [reflexivity |].
    rewrite Hx, IHr; reflexivity.
  - rewrite !remove_links_dict; f_equal.
    apply remove_links_items_idem; exact IH.
Qed.

(** Keys other than ["_links"] survive, with their value stripped. *)
Lemma dict_get_remove_links (k : string) (kvs : dict) :
  k <> "_links" ->
  dict_get k (remove_links_items kvs)
  = option_map _remove_links (dict_get k kvs).
Proof.
  intros Hk; induction kvs as [| [k' v] r IH]; simpl; [reflexivity |].
  destruct (String.eqb_spec k' "_links") as [-> | Hl].
  - destruct (String.eqb_spec "_links" k) as [E | _];
      [symmetry in E; contradiction | exact IH].
  - simpl; destruct (String.eqb k' k); [reflexivity | exact IH].
Qed.

Lemma remove_links_list (l : list value) :
  _remove_links (VList l) = VList (map _remove_links l).
Proof. reflexivity. Qed.

(** ** [validate_efo_id] *)

Lemma substring_whole (s : string) : String.substring 0 (String.length s) s = s.
Proof. induction s as [| c r IH]; simpl; [reflexivity | rewrite IH; reflexivity]. Qed.

Lemma prefix_cons (a b : ascii) (p s : string) :
  String.prefix (String a p) (String b s)
  = if Ascii.ascii_dec a b then String.prefix p s else false.
Proof. reflexivity. Qed.

(** [s.startswith(p)] splits [s] into [p] and [s[len(p):]]. *)
Lemma startswith_split (p s : string) :
  startswith p s = true -> s = p ++ drop_str (String.length p) s.
Proof.
  unfold startswith, drop_str; revert s.
  induction p as [| a p IH]; intros s H.
  - cbn [String.length String.append].
    rewrite Nat.sub_0_r, substring_whole; reflexivity.
  - destruct s as [| b s]; [discriminate H |].
    rewrite prefix_cons in H.
    destruct (Ascii.ascii_dec a b) as [<- | _]; [| discriminate H].
    cbn [String.length String.append String.substring Nat.sub].
    f_equal; apply IH; exact H.
Qed.

Lemma startswith_app (p d : string) : startswith p (p ++ d) = true.
Proof.
  unfold startswith; induction p as [| a p IH].
  - destruct d; reflexivity.
  - cbn [String.append]; rewrite prefix_cons.
    destruct (Ascii.ascii_dec a a); [exact IH | congruence].
Qed.

Lemma drop_str_app (p d : string) : drop_str (String.length p) (p ++ d) = d.
Proof.
  unfold drop_str; induction p as [| a p IH].
  - cbn [String.length String.append].
    rewrite Nat.sub_0_r; apply substring_whole.
  - cbn [String.length String.append String.substring Nat.sub]; exact IH.
Qed.

(** What the validator lets through: exactly the values [str] that read
    ["EFO_"] followed by a string [d] with [d.isdigit()]. *)
Lemma validate_efo_id_ok (v : value) :
  validate_efo_id v = Ok tt
  <-> exists d, v = VStr ("EFO_" ++ d) /\ isdigit d = true.
Proof.
  split.
  - destruct v; simpl; try discriminate.
    destruct (startswith "EFO_" s) eqn:Hp; simpl; [| discriminate].
    destruct (isdigit (drop_str 4 s)) eqn:Hd; simpl; [| discriminate].
    intros _; exists (drop_str 4 s); split; [| exact Hd].
    f_equal; apply (startswith_split "EFO_"); exact Hp.
  - intros (d & -> & Hd); unfold validate_efo_id.
    rewrite startswith_app, (drop_str_app "EFO_"), Hd; reflexivity.
Qed.

(** It never returns anything else than [None] or [ValueError]. *)
Lemma validate_efo_id_raises (v : value) :
  validate_efo_id v = Ok tt \/ validate_efo_id v = Raise ValueError.
Proof.
  destruct v; simpl; auto.
  destruct (negb (startswith "EFO_" s) || negb (isdigit (drop_str 4 s))); auto.
Qed.

Lemma digit_val_isdigit (c : ascii) (z : Z) :
  Demo.digit_val c = Some z -> isdigit_char c = true.
Proof.
  unfold Demo.digit_val, isdigit_char.
  destruct ((48 <=? Z.of_N (N_of_ascii c)) && (Z.of_N (N_of_ascii c) <=? 57)) eqn:E;
    [| discriminate].
  intros _; apply andb_prop in E as [E1 E2].
  apply Z.leb_le in E1, E2.
  apply orb_true_intro; left; apply orb_true_intro; left;
    apply orb_true_intro; left.
  apply andb_true_intro; split; apply Nat.leb_le; lia.
Qed.

(** The decimal digits are digits for [isdigit]. *)
Lemma decimal_digits_isdigit (s : string) :
  decimal_digits s = true -> isdigit s = true.
Proof.
  assert (H : forall r,
             all_chars (fun c => match Demo.digit_val c with
                                 | Some _ => true | None => false end) r = true ->
             all_chars isdigit_char r = true).
  { induction r as [| c r IH]; simpl; [reflexivity |].
    intros E; apply andb_prop in E as [E1 E2].
    destruct (Demo.digit_val c) as [z |] eqn:Ez; [| discriminate].
    rewrite (digit_val_isdigit c z Ez), (IH E2); reflexivity. }
  destruct s as [| c r]; [discriminate |].
  unfold decimal_digits, isdigit; apply H.
Qed.

(** The identifiers written with decimal digits pass. *)
Lemma validate_efo_id_decimal (d : string) :
  decimal_digits d = true -> validate_efo_id (VStr ("EFO_" ++ d)) = Ok tt.
Proof.
  intros Hd; apply validate_efo_id_ok; exists d; split; [reflexivity |].
  apply decimal_digits_isdigit; exact Hd.
Qed.

(** C9: stripping links twice is stripping once, and a value that is
    neither a dict nor a list comes back unchanged. *)
Theorem remove_links_idempotent :
  (forall v, _remove_links (_remove_links v) = _remove_links v)
  /\ (forall v, is_container v = false -> _remove_links v = v).
Proof.
  split; [exact remove_links_idem |].
  intros [| b | z | f | s | l | kvs] H; try reflexivity; discriminate H.
Qed.

Lemma remove_links_idempotent_witness :
  is_container (VStr "rs123") = false
  /\ _remove_links (VStr "rs123") = VStr "rs123"
  /\ _remove_links
       (_remove_links
          (VList [VDict [("_links", VDict [("self", VStr "u")]);
                         ("data", VInt 123)]]))
     = VList [VDict [("data", VInt 123)]].
Proof.
  split; [reflexivity | split].
  - apply (proj2 remove_links_idempotent); reflexivity.
  - rewrite (proj1 remove_links_idempotent); reflexivity.
Defined.

(** C8 at its failing input: the identifier made of ["EFO_"] and the
    superscript two, which is no decimal digit, passes the validator;
    ["EFO_12a"], ["EFO_"] and a non-string do not, ["EFO_0000305"] does. *)
Theorem validate_efo_id_accepts_superscript_digit :
  validate_efo_id (VStr ("EFO_" ++ Demo.superscript_two)) = Ok tt
  /\ decimal_digits Demo.superscript_two = false
  /\ validate_efo_id (VStr "EFO_12a") = Raise ValueError
  /\ validate_efo_id (VStr "EFO_") = Raise ValueError
  /\ validate_efo_id (VInt 305) = Raise ValueError
  /\ validate_efo_id (VStr "EFO_0000305") = Ok tt.
Proof. repeat split; reflexivity. Qed.

End UtilsFacts.

(* ================================================================== *)
(** * The order on floats and the sort *)
(* ================================================================== *)

Module SortFacts.
Import Py Envelope.





Lemma float_le_cases (a b : spec_float) :
  float_le a b = match SFcompare a b with
                 | Some Lt | Some Eq => true
                 | _ => false
                 end.
Proof. unfold float_le, SFleb; destruct (SFcompare a b) as [[| |] |]; reflexivity. Qed.






Lemma float_le_not_nan (a b : spec_float) :
  float_le a b = true -> not_nan a = true /\ not_nan b = true.
Proof.
  rewrite float_le_cases; destruct a, b; simpl; try discriminate; auto.
Qed.

(** ** Runs and insertion *)

Lemma extend_run_app {A : Type} (d : bool) (prev : spec_float * A)
    (l : list (spec_float * A)) :
  (fst (extend_run d prev l) ++ snd (extend_run d prev l))%list = l.
Proof.
  revert prev; induction l as [| x r IH]; intros prev; simpl; [reflexivity |].
  destruct (Bool.eqb (float_lt (fst x) (fst prev)) d); [| reflexivity].
  specialize (IH x); destruct (extend_run d x r) as [run rest]; simpl in *.
  rewrite IH; reflexivity.
Qed.

Lemma count_run_perm {A : Type} (l : list (spec_float * A)) :
  Permutation l (fst (count_run l) ++ snd (count_run l))%list.
Proof.
  destruct l as [| x [| y r]]; simpl; try apply Permutation_refl.
  pose proof (extend_run_app (float_lt (fst y) (fst x)) y r) as H.
  destruct (extend_run (float_lt (fst y) (fst x)) y r) as [run rest];
    simpl in *.
  rewrite <- H at 1.
  destruct (float_lt (fst y) (fst x)).
  - change (x :: y :: (run ++ rest))%list with ((x :: y :: run) ++ rest)%list.
    apply Permutation_app_tail, Permutation_rev.
  - apply Permutation_refl.
Qed.

Lemma insert_keyed_perm {A : Type} (x : spec_float * A) (l : list (spec_float * A)) :
  Permutation (x :: l) (insert_keyed x l).
Proof.
  unfold insert_keyed.
  set (i := bisect _ _ _ _ _).
  rewrite <- (firstn_skipn i l) at 1.
  apply Permutation_middle.
Qed.

Lemma sort_keyed_perm_acc {A : Type} (l acc : list (spec_float * A)) :
  Permutation (acc ++ l)%list (fold_left (fun acc x => insert_keyed x acc) l acc).
Proof.
  revert acc; induction l as [| x r IH]; intros acc; simpl.
  - rewrite app_nil_r; apply Permutation_refl.
  - apply perm_trans with (insert_keyed x acc ++ r)%list; [| apply IH].
    apply perm_trans with ((x :: acc) ++ r)%list.
    + apply Permutation_sym, Permutation_middle.
    + apply Permutation_app_tail, insert_keyed_perm.
Qed.

(** The sort neither loses nor invents items. *)
Lemma sort_keyed_perm {A : Type} (l : list (spec_float * A)) :
  Permutation l (sort_keyed l).
Proof.
  unfold sort_keyed.
  pose proof (count_run_perm l) as H.
  destruct (count_run l) as [run rest]; simpl in H.
  apply perm_trans with (run ++ rest)%list;
    [exact H | apply sort_keyed_perm_acc].
Qed.















Lemma firstn_sorted {A : Type} (R : A -> A -> Prop) (n : nat) (l : list A) :
  StronglySorted R l -> StronglySorted R (firstn n l).
Proof.
  intros Hs; revert n; induction Hs as [| x r Hr IH Hx]; intros [| n]; simpl;
    try constructor.
  - apply IH.
  - rewrite Forall_forall in Hx |- *; intros y Hy; apply Hx.
    rewrite <- (firstn_skipn n r); apply in_or_app; left; exact Hy.
Qed.

Lemma firstn_Forall {A : Type} (P : A -> Prop) (n : nat) (l : list A) :
  Forall P l -> Forall P (firstn n l).
Proof.
  rewrite !Forall_forall; intros H x Hx; apply H.
  rewrite <- (firstn_skipn n l); apply in_or_app; left; exact Hx.
Qed.


(** ** Keys *)





End SortFacts.

(* ================================================================== *)
(** * Properties of server.py *)
(* ================================================================== *)

Module ServerFacts.
Import Py Eff Utils Server Envelope PyFacts UtilsFacts SortFacts.

Section Program.
Variable world : Type.
Variable environ_get : string -> world -> option string.
Variable dump_json : string -> value -> world -> result string * world.
Variable float_of_str : string -> option spec_float.
Variable http_get : string -> dict -> world -> result response * world.

#[local] Abbreviation annotate_item := (annotate_item float_of_str).
#[local] Abbreviation _add_gwas_significance := (_add_gwas_significance float_of_str).
#[local] Abbreviation select_items := (select_items float_of_str).
#[local] Abbreviation handle_large_results :=
  (handle_large_results world environ_get dump_json).
#[local] Abbreviation _process_api_response :=
  (_process_api_response world environ_get dump_json float_of_str).
#[local] Abbreviation rank_items := (rank_items float_of_str).
#[local] Abbreviation pvalue_key := (pvalue_key float_of_str).
#[local] Abbreviation extract_and_process :=
  (extract_and_process world environ_get dump_json float_of_str).
#[local] Abbreviation trait_variant_ranking :=
  (trait_variant_ranking world environ_get dump_json float_of_str http_get).
#[local] Abbreviation get_trait_studies :=
  (get_trait_studies world environ_get dump_json float_of_str http_get).
#[local] Abbreviation get_trait_associations :=
  (get_trait_associations world environ_get dump_json float_of_str http_get).
#[local] Abbreviation get_region_trait_associations :=
  (get_region_trait_associations world environ_get dump_json float_of_str
     http_get).
#[local] Abbreviation search_variants_in_region :=
  (search_variants_in_region world environ_get dump_json float_of_str
     http_get).
#[local] Abbreviation get_variants_from_efo_ids :=
  (get_variants_from_efo_ids world environ_get dump_json float_of_str
     http_get).

(** ** The annotator *)

(** An annotated item is the dict it was, with the flag set to [None]
    or to a comparison with the threshold. *)
Lemma annotate_item_ok (x y : value) :
  annotate_item x = Ok y ->
  exists d flag,
    x = VDict d /\ y = VDict (dict_set "is_gwas_significant" flag d)
    /\ (flag = VNone \/ exists p, flag = VBool (float_le p GWAS_THRESHOLD)).
Proof.
  destruct x as [| b | z | f | s | l | d]; try discriminate.
  intros H; exists d.
  unfold Server.annotate_item in H; simpl in H.
  set (a := match dict_get "pvalue" d with Some v => v | None => VNone end) in H.
  assert (Hp : exists p_str,
             (if truthy a
              then Ok a
              else Ok match dict_get "p_value" d with
                      | Some v => v | None => VNone end) = Ok p_str)
    by (destruct (truthy a); eexists; reflexivity).
  destruct Hp as [p_str Hp]; rewrite Hp in H; simpl in H.
  destruct p_str as [| b | z | f | s | l | kv];
    [ inversion H; exists VNone;
      split; [reflexivity | split; [reflexivity | left; reflexivity]]
    | .. ].
  all: match type of H with
       | context [to_float ?fs ?v] =>
           destruct (to_float fs v) as [p | e]; simpl in H;
           [ inversion H; exists (VBool (float_le p GWAS_THRESHOLD));
             split; [reflexivity | split; [reflexivity | right; exists p; reflexivity]]
           | destruct e; try discriminate H; inversion H; exists VNone;
             (split; [reflexivity | split; [reflexivity | left; reflexivity]]) ]
       end.
Qed.

(** The filter test on an annotated item holds exactly when its flag is
    [True]. *)
Lemma flagged_annotated (x y : value) :
  annotate_item x = Ok y ->
  flagged y = Ok (is_significant y).
Proof.
  intros H; destruct (annotate_item_ok x y H) as (d & flag & -> & -> & Hflag).
  unfold flagged, is_significant; simpl.
  rewrite dict_get_set_same.
  destruct Hflag as [-> | [p ->]]; simpl; [reflexivity |].
  destruct (float_le p GWAS_THRESHOLD); reflexivity.
Qed.

(** Stripping links keeps the flag. *)
Lemma is_significant_remove_links (y : value) :
  is_significant y = true -> is_significant (_remove_links y) = true.
Proof.
  destruct y as [| | | | | | d]; try discriminate.
  rewrite remove_links_dict; unfold is_significant.
  rewrite dict_get_remove_links by discriminate.
  destruct (dict_get "is_gwas_significant" d) as [[| [|] | | | | |] |];
    try discriminate; reflexivity.
Qed.

Lemma add_gwas_significance_in (items items' : list value) :
  _add_gwas_significance items = Ok items' ->
  List.length items' = List.length items
  /\ forall y, In y items' -> exists x, In x items /\ annotate_item x = Ok y.
Proof.
  unfold Server._add_gwas_significance.
  destruct items as [| x r].
  - intros H; inversion H; subst; split; [reflexivity | intros y []].
  - intros H; split; [exact (mapR_length _ _ _ H) | exact (mapR_in _ _ _ H)].
Qed.

(** C2 at its failing input: a record whose [pvalue] is the number [0]
    and that has no [p_value] is flagged [None], although [0] converts to
    a float below the threshold; and with a [p_value] beside it, it is the
    [p_value] that decides. *)
Theorem annotator_zero_pvalue_gets_null :
  _add_gwas_significance [VDict [("pvalue", VInt 0)]]
  = Ok [VDict [("pvalue", VInt 0); ("is_gwas_significant", VNone)]]
  /\ to_float float_of_str (VInt 0) = Ok (S754_zero false)
  /\ float_le (S754_zero false) GWAS_THRESHOLD = true
  /\ _add_gwas_significance
       [VDict [("pvalue", VInt 0); ("p_value", VFloat (S754_infinity false))]]
     = Ok [VDict [("pvalue", VInt 0); ("p_value", VFloat (S754_infinity false));
                  ("is_gwas_significant", VBool false)]].
Proof. repeat split; reflexivity. Qed.

(** ** The selection of the surviving items *)

Lemma strip_stripped (rl : bool) (l : list value) :
  (if rl
   then match _remove_links (VList l) with
        | VList l' => l'
        | _ => l
        end
   else l) = map (stripped rl) l.
Proof.
  destruct rl; simpl; [reflexivity | symmetry; apply map_id].
Qed.

(** The outcomes of [select_items], path by path. *)
Lemma select_items_cases (items : list value) (request_url : string) (t : Z)
    (ros rl skip : bool) (r : dict + list value * dict) :
  select_items items request_url t ros rl skip = Ok r ->
  (skip = true
   /\ r = inr (map (stripped rl) items,
               [("subset_size", VInt 0); ("max_items_in_memory", VInt t)]))
  \/ (skip = false
      /\ exists annotated sig,
          _add_gwas_significance items = Ok annotated
          /\ filterR flagged annotated = Ok sig
          /\ let md :=
               [ ("subset_size", VInt 0); ("max_items_in_memory", VInt t);
                 ("return_only_sig", VBool ros);
                 ("total_items", VInt (len items));
                 ("significant_items", VInt (len sig)) ] in
             (ros = true /\ sig = []
              /\ r = inl [ ("request_url", VStr request_url);
                           ("items", VList []);
                           ("total_count", VInt 0);
                           ("is_complete", VBool true);
                           ("metadata", VDict md) ])
             \/ (ros = true /\ sig <> []
                 /\ r = inr (map (stripped rl) sig, md))
             \/ (ros = false
                 /\ r = inr (map (stripped rl) annotated, md))).
Proof.
  assert (Hstrip : forall l, map (stripped rl) l
                             = if rl then map _remove_links l else l)
    by (intros l; destruct rl; simpl; [reflexivity | apply map_id]).
  unfold Server.select_items.
  destruct skip; simpl.
  - intros H; inversion H; left; split; [reflexivity |].
    rewrite Hstrip; reflexivity.
  - intros H; right; split; [reflexivity |].
    apply rbind_ok in H as (annotated & Ha & H).
    apply rbind_ok in H as (sig & Hs & H).
    exists annotated, sig; split; [exact Ha | split; [exact Hs |]].
    destruct ros.
    + rewrite Hs in H; simpl in H.
      destruct sig as [| x sig'].
      * inversion H; left; repeat split; reflexivity.
      * inversion H; right; left.
        split; [reflexivity | split; [discriminate |]].
        rewrite Hstrip; reflexivity.
    + inversion H; right; right; split; [reflexivity |].
      rewrite Hstrip; reflexivity.
Qed.


(** Where a surviving item comes from, when significance is processed:
    an input item, annotated, then stripped; with the filter on, its flag
    is [True]. *)
Lemma select_items_provenance (items : list value) (request_url : string)
    (t : Z) (ros rl : bool) (surv : list value) (md : dict) :
  select_items items request_url t ros rl false = Ok (inr (surv, md)) ->
  forall o, In o surv ->
    exists r a,
      In r items /\ annotate_item r = Ok a /\ o = stripped rl a
      /\ (ros = true -> is_significant a = true).
Proof.
  intros H o Ho.
  apply select_items_cases in H
    as [[E _] | (_ & annotated & sig & Ha & Hs & [(_ & _ & H) | [(Hr & _ & H) | (Hr & H)]])];
    try discriminate; inversion H; subst; clear H.
  - apply in_map_iff in Ho as (a & <- & Hin).
    destruct (filterR_in _ _ _ Hs a Hin) as [Hina Hflag].
    destruct (add_gwas_significance_in items annotated Ha) as [_ Hsrc].
    destruct (Hsrc a Hina) as (r & Hr & Hann).
    exists r, a; repeat split; try assumption.
    intros _; rewrite (flagged_annotated r a Hann) in Hflag.
    inversion Hflag; reflexivity.
  - apply in_map_iff in Ho as (a & <- & Hin).
    destruct (add_gwas_significance_in items annotated Ha) as [_ Hsrc].
    destruct (Hsrc a Hin) as (r & Hr & Hann).
    exists r, a; repeat split; try assumption.
    discriminate.
Qed.

(** ** The size decision *)

Lemma output_dir_resolved (output_dir : option string) (s : state world) :
  exists d,
    match output_dir with
    | Some d => if truthy (VStr d) then ret d
                else get_default_output_dir world environ_get
    | None => get_default_output_dir world environ_get
    end s = (Ok d, s).
Proof.
  destruct output_dir as [d |]; [destruct (truthy (VStr d)) |];
    eexists; reflexivity.
Qed.

(** Without a spill nothing happens outside and every item is returned. *)
Lemma handle_large_inline (items : list value) (md : dict)
    (request_url : string) (t : Z) (dir : option string) (ftf fnf : bool)
    (s : state world) :
  ((len items >? t) && negb fnf) || ftf = false ->
  handle_large_results items md request_url t dir ftf fnf s
  = (Ok [ ("request_url", VStr request_url);
          ("items", VList items);
          ("total_items_aft_process", VInt (len items));
          ("is_complete", VBool true);
          ("metadata", VDict (dict_set "subset_size" (VInt (len items)) md)) ],
     s).
Proof.
  intros Hc; unfold Server.handle_large_results; rewrite Hc; reflexivity.
Qed.

(** With a spill the complete list is written once; the envelope, if the
    write succeeds, holds the first items and the path, and if it fails
    its exception is the outcome. *)
Lemma handle_large_spill (items : list value) (md : dict)
    (request_url : string) (t : Z) (dir : option string) (ftf fnf : bool)
    (s : state world) :
  ((len items >? t) && negb fnf) || ftf = true ->
  exists d,
    let doc := VDict [("request_url", VStr request_url); ("items", VList items)] in
    handle_large_results items md request_url t dir ftf fnf s
    = (match fst (dump_json d doc (fst s)) with
       | Ok output_file =>
           Ok [ ("request_url", VStr request_url);
                ("items", VList (slice_to t items));
                ("total_items_aft_process", VInt (len items));
                ("is_complete", VBool false);
                ("metadata",
                  VDict (dict_set "output_file" (VStr output_file)
                           (dict_set "subset_size"
                              (VInt (len (slice_to t items))) md))) ]
       | Raise e => Raise e
       end,
       (snd (dump_json d doc (fst s)), EvWrite d doc :: snd s)).
Proof.
  intros Hc; unfold Server.handle_large_results; rewrite Hc.
  destruct (output_dir_resolved dir s) as [d Hd]; exists d.
  unfold bind; rewrite Hd.
  unfold write_large_result_to_file; simpl.
  destruct (dump_json d _ (fst s)) as [[p | []] w']; reflexivity.
Qed.

Lemma process_nonempty (items : list value) (request_url : string) (t : Z)
    (ros rl : bool) (dir : option string) (ftf fnf skip : bool)
    (s : state world) :
  items <> [] ->
  _process_api_response items request_url t ros rl dir ftf fnf skip s
  = match select_items items request_url t ros rl skip with
    | Ok (inl empty_resp) => (Ok empty_resp, s)
    | Ok (inr (surv, md)) =>
        handle_large_results surv md request_url t dir ftf fnf s
    | Raise e => (Raise e, s)
    end.
Proof.
  intros Hne; destruct items as [| x r]; [contradiction |].
  unfold Server._process_api_response, bind, lift.
  destruct (select_items (x :: r) request_url t ros rl skip)
    as [[env | [surv md]] | e]; reflexivity.
Qed.

Lemma cons_neq_self {A : Type} (x : A) (l : list A) : l <> x :: l.
Proof.
  intros E; apply (f_equal (@List.length A)) in E; simpl in E; lia.
Qed.

(** ** The envelope *)


(** C3: for a non-empty surviving list, the processor writes the spill
    file exactly when the list is longer than the threshold and
    [force_no_file] is off, or [force_to_file] is on; what it writes is the
    complete surviving list; [force_to_file] wins over [force_no_file]. *)
Theorem spill_decision (items : list value) (request_url : string)
    (t : Z) (ros rl : bool) (dir : option string) (ftf fnf skip : bool)
    (s : state world) (surv : list value) (md : dict) :
  items <> [] ->
  select_items items request_url t ros rl skip = Ok (inr (surv, md)) ->
  let out :=
    _process_api_response items request_url t ros rl dir ftf fnf skip s in
  let spill := ((len surv >? t) && negb fnf) || ftf in
  ((exists d doc, wrote d doc (snd s) (snd (snd out))) <-> spill = true)
  /\ (spill = true ->
      exists d,
        wrote d (VDict [("request_url", VStr request_url);
                        ("items", VList surv)])
          (snd s) (snd (snd out)))
  /\ (spill = false -> snd out = s)
  /\ (ftf = true -> fnf = true -> spill = true).
Proof.
  intros Hne Hsel out spill; subst out.
  rewrite process_nonempty by exact Hne; rewrite Hsel.
  assert (Hyes : spill = true ->
                 exists d,
                   wrote d (VDict [("request_url", VStr request_url);
                                   ("items", VList surv)])
                     (snd s)
                     (snd (snd (handle_large_results surv md request_url t
                                  dir ftf fnf s)))).
  { intros Hc.
    destruct (handle_large_spill surv md request_url t dir ftf fnf s Hc)
      as [d Hrun].
    cbv zeta in Hrun; rewrite Hrun; exists d; reflexivity. }
  assert (Hno : spill = false ->
                handle_large_results surv md request_url t dir ftf fnf s
                = (fst (handle_large_results surv md request_url t dir ftf
                          fnf s), s)).
  { intros Hc; rewrite (handle_large_inline surv md request_url t dir ftf fnf s Hc).
    reflexivity. }
  split; [| split; [exact Hyes | split]].
  - split.
    + intros (d & doc & Hw); destruct spill eqn:Hc; [reflexivity |].
      rewrite (Hno eq_refl) in Hw; unfold wrote in Hw; simpl in Hw.
      exfalso; exact (cons_neq_self _ _ Hw).
    + intros Hc; destruct (Hyes Hc) as [d Hw]; exists d; eexists; exact Hw.
  - intros Hc; rewrite (Hno Hc); reflexivity.
  - intros -> _; subst spill; apply orb_true_r.
Qed.

(** C5: with [return_only_sig] on and significance processed, every item
    of a returned envelope has [is_gwas_significant == True]. *)
Theorem filter_guarantee (items : list value) (request_url : string)
    (t : Z) (rl : bool) (dir : option string) (ftf fnf : bool)
    (s s' : state world) (env : dict) :
  _process_api_response items request_url t true rl dir ftf fnf false s
  = (Ok env, s') ->
  Forall (fun item => is_significant item = true) (Envelope.items env).
Proof.
  destruct items as [| x r].
  - unfold Server._process_api_response, ret; intros H; inversion H; subst.
    constructor.
  - rewrite process_nonempty by discriminate.
    destruct (select_items (x :: r) request_url t true rl false)
      as [[early | [surv md]] | e] eqn:Hsel; [| | discriminate].
    + intros H; inversion H; subst; clear H.
      apply select_items_cases in Hsel
        as [[E _] | (_ & annotated & sig & _ & _ & [(_ & _ & H) | [(_ & _ & H) | (_ & H)]])];
        try discriminate; inversion H; subst; constructor.
    + assert (Hsurv : Forall (fun item => is_significant item = true) surv).
      { rewrite Forall_forall; intros o Ho.
        destruct (select_items_provenance _ _ _ _ _ _ _ Hsel o Ho)
          as (r0 & a & _ & _ & -> & Hsig).
        specialize (Hsig eq_refl).
        destruct rl; simpl; [apply is_significant_remove_links |]; exact Hsig. }
      destruct (((len surv >? t) && negb fnf) || ftf) eqn:Hc.
      * destruct (handle_large_spill surv md request_url t dir ftf fnf s Hc)
          as [d Hrun].
        cbv zeta in Hrun; rewrite Hrun; clear Hrun.
        destruct (fst (dump_json d _ (fst s))) as [p |]; [| discriminate].
        intros H; inversion H; subst; clear H.
        unfold Envelope.items; simpl.
        rewrite Forall_forall in Hsurv |- *; intros o Ho.
        apply Hsurv; exact (slice_to_in _ _ _ Ho).
      * rewrite (handle_large_inline surv md request_url t dir ftf fnf s Hc).
        intros H; inversion H; subst; exact Hsurv.
Qed.

(** Where an item of a returned envelope comes from, when significance
    is processed: an input item, annotated, then stripped. *)
Lemma process_provenance (items : list value) (request_url : string)
    (t : Z) (ros rl : bool) (dir : option string) (ftf fnf : bool)
    (s s' : state world) (env : dict) :
  _process_api_response items request_url t ros rl dir ftf fnf false s
  = (Ok env, s') ->
  forall o, In o (Envelope.items env) ->
    exists r a, In r items /\ annotate_item r = Ok a /\ o = stripped rl a.
Proof.
  destruct items as [| x r].
  - unfold Server._process_api_response, ret; intros H; inversion H; subst.
    intros o [].
  - rewrite process_nonempty by discriminate.
    destruct (select_items (x :: r) request_url t ros rl false)
      as [[early | [surv md]] | e] eqn:Hsel; [| | discriminate].
    + intros H; inversion H; subst; clear H.
      apply select_items_cases in Hsel
        as [[E _] | (_ & annotated & sig & _ & _ & [(_ & _ & H) | [(_ & _ & H) | (_ & H)]])];
        try discriminate; inversion H; subst; intros o [].
    + assert (Hsurv : forall o, In o surv ->
                exists r0 a, In r0 (x :: r) /\ annotate_item r0 = Ok a
                             /\ o = stripped rl a).
      { intros o Ho.
        destruct (select_items_provenance _ _ _ _ _ _ _ Hsel o Ho)
          as (r0 & a & Hin & Hann & Ho' & _).
        exists r0, a; repeat split; assumption. }
      destruct (((len surv >? t) && negb fnf) || ftf) eqn:Hc.
      * destruct (handle_large_spill surv md request_url t dir ftf fnf s Hc)
          as [d Hrun].
        cbv zeta in Hrun; rewrite Hrun; clear Hrun.
        destruct (fst (dump_json d _ (fst s))) as [p |]; [| discriminate].
        intros H; inversion H; subst; clear H.
        unfold Envelope.items; simpl.
        intros o Ho; apply Hsurv; exact (slice_to_in _ _ _ Ho).
      * rewrite (handle_large_inline surv md request_url t dir ftf fnf s Hc).
        intros H; inversion H; subst; exact Hsurv.
Qed.

(** ** The ranking *)

Lemma has_pvalue_truthy (v : value) :
  has_pvalue v = Ok true -> pvalue_falsy v = false.
Proof.
  destruct v as [| | | | | | kvs]; try discriminate.
  unfold has_pvalue, pvalue_falsy; simpl.
  destruct (dict_get "pvalue" kvs) as [p |]; simpl; [| discriminate].
  intros H; inversion H as [Hp]; rewrite Hp; reflexivity.
Qed.

(** What [rank_items] hands on was extracted and has a truthy [pvalue]. *)
Lemma rank_items_kept (items handed : list value) (top_n : Z) :
  rank_items items top_n = Ok handed ->
  forall r, In r handed -> In r items /\ pvalue_falsy r = false.
Proof.
  unfold Server.rank_items; intros H r Hr.
  apply rbind_ok in H as (kept & Hk & H).
  apply rbind_ok in H as (ordered & Ho & H).
  inversion H; subst; clear H.
  apply slice_to_in in Hr.
  unfold sorted in Ho.
  apply rbind_ok in Ho as (keyed & Hkeyed & Ho).
  inversion Ho; subst; clear Ho.
  apply in_map_iff in Hr as ([k r'] & Hr' & Hin); simpl in Hr'; subst r'.
  apply (Permutation_in _ (Permutation_sym (sort_keyed_perm keyed))) in Hin.
  destruct (mapR_in _ _ _ Hkeyed _ Hin) as (x & Hx & Hkx).
  apply rbind_ok in Hkx as (k' & _ & Hkx); inversion Hkx; subst.
  destruct (filterR_in _ _ _ Hk r Hx) as [Hin' Hp].
  split; [exact Hin' | apply has_pvalue_truthy; exact Hp].
Qed.


(** [trait_variant_ranking], step by step. *)
Lemma ranking_run (efo_id : string) (top_n : Z) (ros : bool) (t : Z)
    (ftf : bool) (dir : option string) (fnf rl : bool) (s : state world) :
  trait_variant_ranking efo_id top_n ros t ftf dir fnf rl s
  = match validate_efo_id (VStr efo_id) with
    | Raise e => (Raise e, s)
    | Ok _ =>
        let target := BASE_URL ++ "/associations" in
        let params :=
          [("efoTrait", VStr efo_id); ("size", VInt GWAS_API_PAGE_SIZE)] in
        let s1 :=
          (snd (http_get target params (fst s)),
           EvGet target params :: snd s) in
        match fst (http_get target params (fst s)) with
        | Raise e => (Raise e, s1)
        | Ok resp =>
            if negb (status_code resp =? SUCCESS_STATUS_CODE)
            then (Ok (create_empty_response (url resp) t ros), s1)
            else
              match json resp with
              | Raise e => (Raise e, s1)
              | Ok body =>
                  match _extract_embedded_items body "associations" with
                  | [] => (Ok (create_empty_response (url resp) t ros), s1)
                  | x :: r =>
                      match rank_items (x :: r) top_n with
                      | Raise e => (Raise e, s1)
                      | Ok handed =>
                          _process_api_response handed (url resp) t ros rl
                            dir ftf fnf false s1
                      end
                  end
              end
        end
    end.
Proof.
  unfold Server.trait_variant_ranking, bind, lift, requests_get, ret.
  destruct (validate_efo_id (VStr efo_id)) as [[] | e]; [| reflexivity].
  cbv zeta.
  destruct (http_get _ _ (fst s)) as [[resp | e] w']; simpl; [| reflexivity].
  destruct (negb (status_code resp =? SUCCESS_STATUS_CODE)); [reflexivity |].
  destruct (json resp) as [body | e]; [| reflexivity].
  destruct (_extract_embedded_items body "associations") as [| x r];
    [reflexivity |].
  destruct (rank_items (x :: r) top_n) as [handed | e]; reflexivity.
Qed.


(** C10: every item of an envelope the ranking returns comes from an
    extracted record whose [pvalue] is truthy; a record whose [pvalue] is
    absent, [None] or otherwise falsy is in no output, whatever [top_n],
    [return_only_sig] and its [p_value]. *)
Theorem ranking_discards_falsy_pvalue (efo_id : string) (top_n : Z)
    (ros : bool) (t : Z) (ftf : bool) (dir : option string) (fnf rl : bool)
    (s s' : state world) (env : dict) :
  trait_variant_ranking efo_id top_n ros t ftf dir fnf rl s = (Ok env, s') ->
  forall o, In o (Envelope.items env) ->
    exists resp body r a,
      fst (http_get (BASE_URL ++ "/associations")
             [("efoTrait", VStr efo_id); ("size", VInt GWAS_API_PAGE_SIZE)]
             (fst s)) = Ok resp
      /\ json resp = Ok body
      /\ In r (_extract_embedded_items body "associations")
      /\ pvalue_falsy r = false
      /\ annotate_item r = Ok a
      /\ o = stripped rl a.
Proof.
  rewrite ranking_run.
  destruct (validate_efo_id (VStr efo_id)) as [[] | e]; [| discriminate].
  cbv zeta.
  destruct (fst (http_get _ _ (fst s))) as [resp | e]; [| discriminate].
  destruct (negb (status_code resp =? SUCCESS_STATUS_CODE)).
  { intros H; inversion H; subst; intros o []. }
  destruct (json resp) as [body | e] eqn:Hjson; [| discriminate].
  destruct (_extract_embedded_items body "associations") as [| x r] eqn:Hext.
  { intros H; inversion H; subst; intros o []. }
  destruct (rank_items (x :: r) top_n) as [handed | e] eqn:Hrank;
    [| discriminate].
  intros Hrun o Ho.
  destruct (process_provenance _ _ _ _ _ _ _ _ _ _ _ Hrun o Ho)
    as (r0 & a & Hin & Hann & Heq).
  destruct (rank_items_kept _ _ _ Hrank r0 Hin) as [Hin' Hp].
  exists resp, body, r0, a.
  rewrite Hext; repeat split; assumption.
Qed.

(** ** Identifier validation in the operations *)

(** The processor only ever adds to the log. *)
Lemma process_log_grows (items : list value) (request_url : string) (t : Z)
    (ros rl : bool) (dir : option string) (ftf fnf skip : bool)
    (s : state world) :
  exists extra,
    snd (snd (_process_api_response items request_url t ros rl dir ftf fnf
                skip s)) = (extra ++ snd s)%list.
Proof.
  destruct items as [| x r].
  - exists []; reflexivity.
  - rewrite process_nonempty by discriminate.
    destruct (select_items (x :: r) request_url t ros rl skip)
      as [[early | [surv md]] | e]; try (exists []; reflexivity).
    destruct (((len surv >? t) && negb fnf) || ftf) eqn:Hc.
    + destruct (handle_large_spill surv md request_url t dir ftf fnf s Hc)
        as [d Hrun].
      cbv zeta in Hrun; rewrite Hrun; eexists [_]; reflexivity.
    + rewrite (handle_large_inline surv md request_url t dir ftf fnf s Hc).
      exists []; reflexivity.
Qed.

Lemma extract_and_process_log_grows (resp : response) (key : string) (t : Z)
    (ros rl : bool) (dir : option string) (ftf fnf skip : bool)
    (s : state world) :
  exists extra,
    snd (snd (extract_and_process resp key t ros rl dir ftf fnf skip s))
    = (extra ++ snd s)%list.
Proof.
  unfold Server.extract_and_process, bind, lift.
  destruct (json resp) as [body | e]; [| exists []; reflexivity].
  apply process_log_grows.
Qed.

(** The operations that call the validator stop at a malformed
    identifier: [ValueError], and nothing has happened outside. *)
Lemma validated_operations_stop (id : string) (s : state world) :
  validate_efo_id (VStr id) = Raise ValueError ->
  (forall top_n ros t ftf dir fnf rl,
      trait_variant_ranking id top_n ros t ftf dir fnf rl s
      = (Raise ValueError, s))
  /\ (forall chromosome start end_ ros t ftf dir fnf rl,
        get_region_trait_associations chromosome start end_ id ros t ftf dir
          fnf rl s = (Raise ValueError, s))
  /\ (forall chromosome start end_ ros t ftf dir fnf rl,
        truthy (VStr id) = true ->
        search_variants_in_region chromosome start end_ (Some id) ros t ftf
          dir fnf rl s = (Raise ValueError, s))
  /\ (forall before after ros t ftf dir fnf rl,
        Forall (fun i => validate_efo_id (VStr i) = Ok tt) before ->
        get_variants_from_efo_ids (before ++ id :: after)%list ros t ftf dir
          fnf rl s = (Raise ValueError, s)).
Proof.
  intros Hv; split; [| split; [| split]].
  - intros; rewrite ranking_run, Hv; reflexivity.
  - intros; unfold Server.get_region_trait_associations, bind, lift.
    rewrite Hv; reflexivity.
  - intros chromosome start end_ ros t ftf dir fnf rl Ht.
    unfold Server.search_variants_in_region, bind, lift.
    rewrite Ht, Hv; reflexivity.
  - intros before after ros t ftf dir fnf rl Hb.
    unfold Server.get_variants_from_efo_ids, bind, lift.
    assert (E : mapR (fun efo_id => validate_efo_id (VStr efo_id))
                  (before ++ id :: after)%list = Raise ValueError).
    { induction Hb as [| i r Hi _ IH]; cbn [app mapR].
      - rewrite Hv; reflexivity.
      - rewrite Hi, IH; reflexivity. }
    rewrite E; reflexivity.
Qed.

(** C7 at its failing input: [get_trait_studies] and
    [get_trait_associations] never call the validator, so whatever the
    identifier, the malformed ["not-an-efo-id"] included, the request goes
    out with the identifier in its path. *)
Theorem trait_lookups_skip_validation :
  validate_efo_id (VStr "not-an-efo-id") = Raise ValueError
  /\ (forall efoId t ftf dir fnf rl s,
        In (EvGet (BASE_URL ++ "/efoTraits/" ++ efoId ++ "/studies") [])
           (snd (snd (get_trait_studies efoId t ftf dir fnf rl s))))
  /\ (forall efoId ros t ftf dir fnf rl s,
        In (EvGet (BASE_URL ++ "/efoTraits/" ++ efoId ++ "/associations") [])
           (snd (snd (get_trait_associations efoId ros t ftf dir fnf rl s)))).
Proof.
  split; [reflexivity | split].
  - intros efoId t ftf dir fnf rl s.
    unfold Server.get_trait_studies, bind, requests_get, ret.
    destruct (http_get _ _ (fst s)) as [[resp | e] w']; simpl;
      [| left; reflexivity].
    destruct (negb (status_code resp =? SUCCESS_STATUS_CODE));
      [left; reflexivity |].
    match goal with
    | |- context [Server.extract_and_process _ _ _ _ ?a ?b ?c ?d ?e ?f ?g ?h ?i ?st] =>
        destruct (extract_and_process_log_grows a b c d e f g h i st)
          as [extra ->]
    end.
    apply in_or_app; right; left; reflexivity.
  - intros efoId ros t ftf dir fnf rl s.
    unfold Server.get_trait_associations, bind, requests_get, ret.
    destruct (http_get _ _ (fst s)) as [[resp | e] w']; simpl;
      [| left; reflexivity].
    destruct (negb (status_code resp =? SUCCESS_STATUS_CODE));
      [left; reflexivity |].
    match goal with
    | |- context [Server.extract_and_process _ _ _ _ ?a ?b ?c ?d ?e ?f ?g ?h ?i ?st] =>
        destruct (extract_and_process_log_grows a b c d e f g h i st)
          as [extra ->]
    end.
    apply in_or_app; right; left; reflexivity.
Qed.

End Program.

End ServerFacts.

(* ================================================================== *)
(** * The extractor *)
(* ================================================================== *)

Module ExtractFacts.
Import Py Utils Server Envelope.





End ExtractFacts.

(* ================================================================== *)
(** * The theorems at work on concrete inputs *)
(* ================================================================== *)

Module Examples.
Import Py Eff Utils Server Envelope ServerFacts.



Lemma spill_decision_witness :
  exists surv md,
    Demo.scenario_items <> []
    /\ select_items Demo.float_of_str Demo.scenario_items "u" 1 false true
         false = Ok (inr (surv, md))
    /\ ((len surv >? 1) && negb false) || false = true
    /\ exists d,
         wrote d (VDict [("request_url", VStr "u"); ("items", VList surv)])
           (snd Demo.start)
           (snd (snd (Demo.process Demo.scenario_items "u" 1 false true None
                        false false false Demo.start))).
Proof.
  eexists; eexists.
  split; [discriminate |].
  split; [vm_compute; reflexivity |].
  split; [reflexivity |].
  refine (proj1 (proj2
            (spill_decision Demo.world Demo.environ_get Demo.dump_json
               Demo.float_of_str Demo.scenario_items "u" 1 false true None
               false false false Demo.start _ _ _ _)) _).
  - discriminate.
  - vm_compute; reflexivity.
  - reflexivity.
Defined.

Lemma filter_guarantee_witness :
  exists env s',
    Demo.process Demo.scenario_items "u" 10 true true None false false false
      Demo.start = (Ok env, s')
    /\ List.length (Envelope.items env) = 1%nat
    /\ Forall (fun item => is_significant item = true) (Envelope.items env).
Proof.
  eexists; eexists; split; [vm_compute; reflexivity |].
  split; [reflexivity |].
  eapply (filter_guarantee Demo.world Demo.environ_get Demo.dump_json
            Demo.float_of_str Demo.scenario_items "u" 10 true None false false
            Demo.start).
  vm_compute; reflexivity.
Defined.


Lemma ranking_discards_falsy_pvalue_witness :
  let body :=
    Demo.embedded_body "associations"
      (VList [VDict [("pvalue", VInt 0); ("p_value", VStr "1e-9")];
              Demo.with_pvalue (VStr "1e-9")]) in
  exists env s',
    Demo.ranking body "EFO_0000305" 10 true 5000 false None false true
      Demo.start = (Ok env, s')
    /\ List.length (Envelope.items env) = 1%nat
    /\ forall o, In o (Envelope.items env) ->
         exists resp body' r a,
           fst (Demo.upstream 200 body (BASE_URL ++ "/associations")
                  [("efoTrait", VStr "EFO_0000305");
                   ("size", VInt GWAS_API_PAGE_SIZE)] (fst Demo.start))
           = Ok resp
           /\ json resp = Ok body'
           /\ In r (_extract_embedded_items body' "associations")
           /\ pvalue_falsy r = false
           /\ annotate_item Demo.float_of_str r = Ok a
           /\ o = stripped true a.
Proof.
  intros body.
  eexists; eexists; split; [vm_compute; reflexivity |].
  split; [reflexivity |].
  eapply (ranking_discards_falsy_pvalue Demo.world Demo.environ_get
            Demo.dump_json Demo.float_of_str (Demo.upstream 200 body)
            "EFO_0000305" 10 true 5000 false None false true Demo.start).
  vm_compute; reflexivity.
Defined.

(** The trait-to-studies lookup run on a malformed identifier: the
    validator would refuse it, the operation sends it upstream and returns
    an envelope. *)
Example trait_studies_with_malformed_id :
  validate_efo_id (VStr "not-an-efo-id") = Raise ValueError
  /\ Demo.trait_studies
       (Demo.embedded_body "studies"
          (VList [VDict [("accessionId", VStr "GCST1")]]))
       "not-an-efo-id" 5000 false None false true Demo.start
     = (Ok [ ("request_url",
               VStr (BASE_URL ++ "/efoTraits/not-an-efo-id/studies"));
             ("items", VList [VDict [("accessionId", VStr "GCST1")]]);
             ("total_items_aft_process", VInt 1);
             ("is_complete", VBool true);
             ("metadata",
               VDict [("subset_size", VInt 1);
                      ("max_items_in_memory", VInt 5000)]) ],
        (tt, [EvGet (BASE_URL ++ "/efoTraits/not-an-efo-id/studies") []])).
Proof. split; vm_compute; reflexivity. Qed.

End Examples.

(* ================================================================== *)
(** * More properties of utils.py *)
(* ================================================================== *)

Module LinkFacts.
Import Py Utils Envelope Reading UtilsFacts.

Lemma links_free_dict (kvs : dict) :
  links_free (VDict kvs) = links_free_items kvs.
Proof. reflexivity. Qed.

Lemma remove_links_items_free (kvs : dict) :
  Forall (fun kv => links_free (_remove_links (snd kv)) = true) kvs ->
  links_free_items (remove_links_items kvs) = true.
Proof.
  induction 1 as [| [k v] r Hv _ IH]; simpl; [reflexivity |].
  destruct (String.eqb k "_links") eqn:E; [exact IH |].
  simpl in *; rewrite E, Hv, IH; reflexivity.
Qed.

Lemma remove_links_free (v : value) : links_free (_remove_links v) = true.
Proof.
  induction v as [| b | z | f | s | l IH | kvs IH] using value_deep_ind;
    try reflexivity.
  - simpl; apply forallb_forall; intros y Hy.
    apply in_map_iff in Hy as (x & <- & Hx).
    rewrite Forall_forall in IH; apply IH; exact Hx.
  - rewrite remove_links_dict, links_free_dict.
    apply remove_links_items_free; exact IH.
Qed.

Lemma remove_links_items_fixed (kvs : dict) :
  Forall (fun kv => links_free (snd kv) = true -> _remove_links (snd kv) = snd kv) kvs ->
  links_free_items kvs = true -> remove_links_items kvs = kvs.
Proof.
  induction 1 as [| [k v] r Hv _ IH]; simpl; [reflexivity |].
  intros H; apply andb_prop in H as [H Hr]; apply andb_prop in H as [Hk Hf].
  destruct (String.eqb k "_links"); [discriminate Hk |].
  simpl in Hv; rewrite (Hv Hf), (IH Hr); reflexivity.
Qed.

Lemma remove_links_fixed (v : value) :
  links_free v = true -> _remove_links v = v.
Proof.
  induction v as [| b | z | f | s | l IH | kvs IH] using value_deep_ind;
    try reflexivity.
  - simpl; intros H; f_equal.
    rewrite forallb_forall in H.
    induction IH as [| x r Hx _ IHr]; simpl; [reflexivity |].
    rewrite (Hx (H x (or_introl eq_refl))), IHr;
      [reflexivity | intros y Hy; apply H; right; exact Hy].
  - rewrite remove_links_dict, links_free_dict; intros H; f_equal.
    apply remove_links_items_fixed; assumption.
Qed.

(** X1: whatever the value, no dict of the result of [_remove_links], at
    any depth, has the key ["_links"]. *)
Theorem remove_links_leaves_no_links (v : value) :
  links_free (_remove_links v) = true.
Proof. exact (remove_links_free v). Qed.

(** X2: a value in which no dict has the key ["_links"] comes back from
    [_remove_links] as it is. *)
Theorem remove_links_fixes_links_free (v : value) :
  links_free v = true -> _remove_links v = v.
Proof. exact (remove_links_fixed v). Qed.

Lemma remove_links_fixes_links_free_witness :
  links_free (VList [VDict [("data", VInt 123); ("loci", VList [VStr "a"])]])
  = true
  /\ _remove_links (VList [VDict [("data", VInt 123); ("loci", VList [VStr "a"])]])
     = VList [VDict [("data", VInt 123); ("loci", VList [VStr "a"])]].
Proof.
  split; [reflexivity |].
  apply remove_links_fixes_links_free; reflexivity.
Defined.

(** X3: [_remove_links] on a dict drops the key ["_links"] and keeps every
    other key, its value stripped in turn; on a list it keeps the length. *)
Theorem remove_links_keeps_other_keys (d : dict) (l : list value) (k : string) :
  k <> "_links" ->
  field k (_remove_links (VDict d)) = option_map _remove_links (dict_get k d)
  /\ field "_links" (_remove_links (VDict d)) = None
  /\ exists l', _remove_links (VList l) = VList l'
                /\ List.length l' = List.length l.
Proof.
  intros Hk; rewrite remove_links_dict; unfold field.
  split; [apply dict_get_remove_links; exact Hk | split].
  - induction d as [| [k' v] r IH]; simpl; [reflexivity |].
    destruct (String.eqb k' "_links") eqn:E; [exact IH |].
    simpl; rewrite E; exact IH.
  - exists (map _remove_links l); split; [reflexivity | apply length_map].
Qed.

Lemma remove_links_keeps_other_keys_witness :
  "data" <> "_links"
  /\ field "data"
       (_remove_links
          (VDict [("_links", VDict [("self", VStr "u")]);
                  ("data", VDict [("_links", VNone); ("n", VInt 1)])]))
     = Some (VDict [("n", VInt 1)]).
Proof.
  split; [discriminate |].
  rewrite (proj1 (remove_links_keeps_other_keys
                    [("_links", VDict [("self", VStr "u")]);
                     ("data", VDict [("_links", VNone); ("n", VInt 1)])]
                    [] "data" ltac:(discriminate))).
  reflexivity.
Defined.

(** X4: [validate_efo_id] returns exactly on the strings made of ["EFO_"]
    and a suffix that passes [isdigit], and raises [ValueError], never
    anything else, on every other value. *)
Theorem validate_efo_id_accepts_exactly (v : value) :
  (validate_efo_id v = Ok tt
   <-> exists d, v = VStr ("EFO_" ++ d) /\ isdigit d = true)
  /\ (validate_efo_id v = Ok tt \/ validate_efo_id v = Raise ValueError).
Proof.
  split; [apply validate_efo_id_ok | apply validate_efo_id_raises].
Qed.

End LinkFacts.

(* ================================================================== *)
(** * More properties of the annotator and the processor *)
(* ================================================================== *)

Module ProcessorFacts.
Import Py Eff Utils Server Envelope Reading PyFacts UtilsFacts ServerFacts
  LinkFacts.

Lemma dict_set_twice (k : string) (v v' : value) (d : dict) :
  dict_set k v (dict_set k v' d) = dict_set k v d.
Proof.
  induction d as [| [k' x] r IH]; simpl.
  - rewrite String.eqb_refl; reflexivity.
  - destruct (String.eqb k' k) eqn:E; simpl; rewrite E;
      [reflexivity | rewrite IH; reflexivity].
Qed.

Lemma mapR_fixed {A : Type} (f : A -> result A) (l : list A) :
  Forall (fun y => f y = Ok y) l -> mapR f l = Ok l.
Proof.
  induction 1 as [| y r Hy _ IH]; simpl; [reflexivity |].
  rewrite Hy; simpl; rewrite IH; reflexivity.
Qed.

Lemma mapR_Forall2 {A B : Type} (f : A -> result B) (l : list A) (l' : list B) :
  mapR f l = Ok l' -> Forall2 (fun x y => f x = Ok y) l l'.
Proof.
  revert l'; induction l as [| x r IH]; simpl; intros l' H.
  - inversion H; constructor.
  - apply rbind_ok in H as (y & Hy & H).
    apply rbind_ok in H as (ys & Hys & H).
    inversion H; subst; constructor; [exact Hy | apply IH; exact Hys].
Qed.

(** One failing element makes [mapR] fail. *)
Lemma mapR_raises {A B : Type} (f : A -> result B) (l : list A) (x : A) (e : exn) :
  In x l -> f x = Raise e -> exists e', mapR f l = Raise e'.
Proof.
  intros Hin Hx; induction l as [| y r IH]; [destruct Hin |]; simpl.
  destruct (f y) as [b | e1] eqn:Ey; [| exists e1; reflexivity].
  destruct Hin as [-> | Hin]; [rewrite Hx in Ey; discriminate Ey |].
  destruct (IH Hin) as [e' He']; rewrite He'; exists e'; reflexivity.
Qed.

Lemma filterR_length {A : Type} (p : A -> result bool) (l l' : list A) :
  filterR p l = Ok l' -> (List.length l' <= List.length l)%nat.
Proof.
  revert l'; induction l as [| x r IH]; simpl; intros l' H.
  - inversion H; simpl; lia.
  - apply rbind_ok in H as (b & _ & H).
    apply rbind_ok in H as (ys & Hys & H).
    inversion H; subst; specialize (IH ys Hys).
    destruct b; simpl; lia.
Qed.

Section Program.
Variable world : Type.
Variable environ_get : string -> world -> option string.
Variable dump_json : string -> value -> world -> result string * world.
Variable float_of_str : string -> option spec_float.
Variable http_get : string -> dict -> world -> result response * world.

#[local] Abbreviation annotate_item := (annotate_item float_of_str).
#[local] Abbreviation _add_gwas_significance :=
  (_add_gwas_significance float_of_str).
#[local] Abbreviation select_items := (select_items float_of_str).
#[local] Abbreviation handle_large_results :=
  (handle_large_results world environ_get dump_json).
#[local] Abbreviation _process_api_response :=
  (_process_api_response world environ_get dump_json float_of_str).
#[local] Abbreviation to_float := (to_float float_of_str).

(** ** The annotator *)

(** The annotator on a dict, in one match on the chosen p-value. *)
Lemma annotate_item_dict (d : dict) :
  annotate_item (VDict d)
  = if is_none (chosen_pvalue d)
    then Ok (VDict (dict_set "is_gwas_significant" VNone d))
    else
      match to_float (chosen_pvalue d) with
      | Ok p =>
          Ok (VDict (dict_set "is_gwas_significant"
                       (VBool (float_le p GWAS_THRESHOLD)) d))
      | Raise ValueError | Raise TypeError =>
          Ok (VDict (dict_set "is_gwas_significant" VNone d))
      | Raise e => Raise e
      end.
Proof.
  unfold Server.annotate_item, chosen_pvalue; simpl.
  set (a := match dict_get "pvalue" d with Some v => v | None => VNone end).
  set (b := match dict_get "p_value" d with Some v => v | None => VNone end).
  assert (E : (if truthy a then Ok a else Ok b)
              = Ok (if truthy a then a else b))
    by (destruct (truthy a); reflexivity).
  rewrite E; simpl.
  destruct (if truthy a then a else b) as [| ? | ? | ? | ? | ? | ?];
    try reflexivity;
    match goal with
    | |- context [Py.to_float ?fs ?v] =>
        destruct (Py.to_float fs v) as [p | []]; reflexivity
    end.
Qed.

Lemma chosen_pvalue_flagged (d : dict) (flag : value) :
  chosen_pvalue (dict_set "is_gwas_significant" flag d) = chosen_pvalue d.
Proof.
  unfold chosen_pvalue.
  rewrite !dict_get_set_other by discriminate; reflexivity.
Qed.

(** X5: annotating is idempotent: a list the annotator returned comes
    back unchanged from a second pass. *)
Theorem add_gwas_significance_idempotent (items items' : list value) :
  _add_gwas_significance items = Ok items' ->
  _add_gwas_significance items' = Ok items'.
Proof.
  intros H.
  assert (Hfix : Forall (fun y => annotate_item y = Ok y) items').
  { rewrite Forall_forall; intros y Hy.
    destruct (add_gwas_significance_in float_of_str items items' H)
      as [_ Hsrc].
    destruct (Hsrc y Hy) as (x & _ & Hxy).
    destruct (annotate_item_ok float_of_str x y Hxy) as (d & flag & -> & -> & _).
    rewrite annotate_item_dict in Hxy.
    rewrite annotate_item_dict, chosen_pvalue_flagged.
    destruct (is_none (chosen_pvalue d));
      [rewrite dict_set_twice; exact Hxy |].
    destruct (to_float (chosen_pvalue d)) as [p | []];
      try discriminate Hxy; rewrite dict_set_twice; exact Hxy. }
  unfold Server._add_gwas_significance.
  destruct items' as [| y r]; [reflexivity | apply mapR_fixed; exact Hfix].
Qed.

(** X6: the annotator leaves every item a dict with all its other
    fields as they were, and with the flag set to [None] or to a bool. *)
Theorem add_gwas_significance_keeps_fields (items items' : list value) :
  _add_gwas_significance items = Ok items' ->
  Forall2
    (fun x y =>
       is_dict x = true /\ is_dict y = true
       /\ (forall k, k <> "is_gwas_significant" -> field k y = field k x)
       /\ (field "is_gwas_significant" y = Some VNone
           \/ exists b, field "is_gwas_significant" y = Some (VBool b)))
    items items'.
Proof.
  intros H.
  assert (HF : Forall2 (fun x y => annotate_item x = Ok y) items items').
  { unfold Server._add_gwas_significance in H.
    destruct items as [| x r]; [inversion H; constructor |].
    apply mapR_Forall2; exact H. }
  clear H; induction HF as [| x y r r' Hxy _ IH]; constructor; [| exact IH].
  destruct (annotate_item_ok float_of_str x y Hxy)
    as (d & flag & -> & -> & Hflag).
  split; [reflexivity | split; [reflexivity | split]].
  - intros k Hk; unfold field; apply dict_get_set_other.
    intros E; apply Hk; symmetry; exact E.
  - unfold field; rewrite dict_get_set_same.
    destruct Hflag as [-> | [p ->]]; [left; reflexivity |].
    right; eexists; reflexivity.
Qed.

Lemma is_none_spec (v : value) : is_none v = true <-> v = VNone.
Proof. destruct v; simpl; split; congruence. Qed.


(** X7: what the flag of a record is.  The p-value read is the [pvalue]
    field when that is truthy, else the [p_value] field.  When it is
    [None] the flag is [None]; when it converts to a float [p] the flag is
    [p <= 5e-8]; when the conversion raises [ValueError] or [TypeError]
    the flag is [None]. *)
Theorem annotator_significance (d : dict) :
  (forall v, dict_get "pvalue" d = Some v -> truthy v = true ->
             chosen_pvalue d = v)
  /\ (chosen_pvalue d = VNone ->
      annotate_item (VDict d)
      = Ok (VDict (dict_set "is_gwas_significant" VNone d)))
  /\ (forall p,
        chosen_pvalue d <> VNone -> to_float (chosen_pvalue d) = Ok p ->
        annotate_item (VDict d)
        = Ok (VDict (dict_set "is_gwas_significant"
                       (VBool (float_le p GWAS_THRESHOLD)) d)))
  /\ (to_float (chosen_pvalue d) = Raise ValueError
      \/ to_float (chosen_pvalue d) = Raise TypeError ->
      annotate_item (VDict d)
      = Ok (VDict (dict_set "is_gwas_significant" VNone d))).
Proof.
  split; [| split; [| split]].
  - intros v Hv Ht; unfold chosen_pvalue; rewrite Hv, Ht; reflexivity.
  - intros H; rewrite annotate_item_dict, H; reflexivity.
  - intros p Hn Hp; rewrite annotate_item_dict, Hp.
    destruct (is_none (chosen_pvalue d)) eqn:E; [| reflexivity].
    apply is_none_spec in E; contradiction.
  - intros H; rewrite annotate_item_dict.
    destruct (is_none (chosen_pvalue d)); [reflexivity |].
    destruct H as [-> | ->]; reflexivity.
Qed.


(** ** The processor *)


(** X8: with significance processed, an item that is no dict, or a record
    whose p-value overflows [float], aborts the processor: an exception,
    no envelope, and nothing done outside. *)
Theorem processor_aborts_on_bad_item (items : list value) (x : value)
    (request_url : string) (t : Z) (ros rl : bool) (dir : option string)
    (ftf fnf : bool) (s : state world) :
  In x items ->
  (is_dict x = false
   \/ exists d, x = VDict d
                /\ to_float (chosen_pvalue d) = Raise OverflowError) ->
  exists e,
    _process_api_response items request_url t ros rl dir ftf fnf false s
    = (Raise e, s).
Proof.
  intros Hin Hbad.
  assert (Hx : exists e0, annotate_item x = Raise e0).
  { destruct Hbad as [Hnd | (d & -> & Hov)].
    - exists AttributeError; destruct x; try reflexivity; discriminate Hnd.
    - exists OverflowError; rewrite annotate_item_dict, Hov.
      destruct (is_none (chosen_pvalue d)) eqn:E; [| reflexivity].
      apply is_none_spec in E; rewrite E in Hov; discriminate Hov. }
  destruct Hx as [e0 Hx].
  assert (Hne : items <> []) by (destruct items; [destruct Hin | discriminate]).
  rewrite (process_nonempty world environ_get dump_json float_of_str) by exact Hne.
  destruct (mapR_raises annotate_item items x e0 Hin Hx) as [e He].
  exists e; unfold Server.select_items, Server._add_gwas_significance; simpl.
  destruct items as [| y r]; [contradiction |].
  rewrite He; reflexivity.
Qed.

(** The returned envelope, path by path: the empty shape, or the inline
    or spilled shape around the surviving items. *)
Lemma process_outcome (items : list value) (request_url : string) (t : Z)
    (ros rl : bool) (dir : option string) (ftf fnf skip : bool)
    (s s' : state world) (env : dict) :
  _process_api_response items request_url t ros rl dir ftf fnf skip s
  = (Ok env, s') ->
  (items = []
   /\ env = (if negb skip
             then dict_set_in "metadata" "significant_items" (VInt 0)
                    (dict_set_in "metadata" "total_items" (VInt 0)
                       (create_empty_response request_url t ros))
             else create_empty_response request_url t ros))
  \/ (items <> []
      /\ select_items items request_url t ros rl skip = Ok (inl env))
  \/ (items <> []
      /\ exists surv md,
          select_items items request_url t ros rl skip = Ok (inr (surv, md))
          /\ ((((len surv >? t) && negb fnf) || ftf = false
               /\ env = [ ("request_url", VStr request_url);
                          ("items", VList surv);
                          ("total_items_aft_process", VInt (len surv));
                          ("is_complete", VBool true);
                          ("metadata",
                            VDict (dict_set "subset_size" (VInt (len surv))
                                     md)) ])
              \/ (((len surv >? t) && negb fnf) || ftf = true
                  /\ exists output_file,
                      env = [ ("request_url", VStr request_url);
                              ("items", VList (slice_to t surv));
                              ("total_items_aft_process", VInt (len surv));
                              ("is_complete", VBool false);
                              ("metadata",
                                VDict
                                  (dict_set "output_file" (VStr output_file)
                                     (dict_set "subset_size"
                                        (VInt (len (slice_to t surv)))
                                        md))) ]))).
Proof.
  destruct items as [| x r].
  - unfold Server._process_api_response, ret; intros H; inversion H.
    left; split; reflexivity.
  - rewrite (process_nonempty world environ_get dump_json float_of_str)
      by discriminate.
    destruct (select_items (x :: r) request_url t ros rl skip)
      as [[early | [surv md]] | e] eqn:Hsel; [| | discriminate].
    + intros H; inversion H; subst.
      right; left; split; [discriminate | reflexivity].
    + intros H; right; right; split; [discriminate |].
      exists surv, md; split; [reflexivity |].
      destruct (((len surv >? t) && negb fnf) || ftf) eqn:Hc.
      * destruct (handle_large_spill world environ_get dump_json surv md
                    request_url t dir ftf fnf s Hc) as [d Hrun].
        cbv zeta in Hrun; rewrite Hrun in H; clear Hrun.
        destruct (fst (dump_json d _ (fst s))) as [p |]; [| discriminate].
        inversion H; right; split; [reflexivity |].
        exists p; reflexivity.
      * rewrite (handle_large_inline world environ_get dump_json surv md
                   request_url t dir ftf fnf s Hc) in H.
        inversion H; left; split; reflexivity.
Qed.

(** The metadata [select_items] hands on, and how many items survive. *)
Lemma select_items_metadata (items : list value) (request_url : string)
    (t : Z) (ros rl skip : bool) (surv : list value) (md : dict) :
  select_items items request_url t ros rl skip = Ok (inr (surv, md)) ->
  len surv <= len items
  /\ (skip = true
      /\ md = [("subset_size", VInt 0); ("max_items_in_memory", VInt t)]
      /\ surv = map (stripped rl) items
      \/ skip = false
         /\ exists k,
             md = [ ("subset_size", VInt 0); ("max_items_in_memory", VInt t);
                    ("return_only_sig", VBool ros);
                    ("total_items", VInt (len items));
                    ("significant_items", VInt k) ]
             /\ 0 <= k <= len items
             /\ (ros = true -> len surv = k)).
Proof.
  intros H.
  apply (select_items_cases float_of_str) in H
    as [[Hs H] | (Hs & annotated & sig & Ha & Hsig & [(_ & _ & H) | [(Hr & _ & H) | (Hr & H)]])];
    inversion H; subst; clear H; unfold len; rewrite ?length_map.
  - split; [lia | left; repeat split; reflexivity].
  - pose proof (filterR_length _ _ _ Hsig) as Hl.
    destruct (add_gwas_significance_in float_of_str items annotated Ha)
      as [Hlen _].
    split; [lia | right; split; [reflexivity |]].
    eexists; split; [reflexivity | split; [lia | reflexivity]].
  - pose proof (filterR_length _ _ _ Hsig) as Hl.
    destruct (add_gwas_significance_in float_of_str items annotated Ha)
      as [Hlen _].
    split; [lia | right; split; [reflexivity |]].
    eexists; split; [reflexivity | split; [lia | discriminate]].
Qed.

Lemma select_items_early (items : list value) (request_url : string)
    (t : Z) (ros rl skip : bool) (env : dict) :
  select_items items request_url t ros rl skip = Ok (inl env) ->
  skip = false /\ ros = true
  /\ env = [ ("request_url", VStr request_url);
             ("items", VList []);
             ("total_count", VInt 0);
             ("is_complete", VBool true);
             ("metadata",
               VDict [ ("subset_size", VInt 0);
                       ("max_items_in_memory", VInt t);
                       ("return_only_sig", VBool true);
                       ("total_items", VInt (len items));
                       ("significant_items", VInt 0) ]) ].
Proof.
  intros H.
  apply (select_items_cases float_of_str) in H
    as [[Hs H] | (Hs & annotated & sig & Ha & Hsig & [(Hr & He & H) | [(Hr & _ & H) | (Hr & H)]])];
    inversion H; subst; repeat split; reflexivity.
Qed.

(** X9: in every envelope the processor returns, [metadata.subset_size]
    is the length of [items]. *)
Theorem subset_size_accounting (items : list value) (request_url : string)
    (t : Z) (ros rl : bool) (dir : option string) (ftf fnf skip : bool)
    (s s' : state world) (env : dict) :
  _process_api_response items request_url t ros rl dir ftf fnf skip s
  = (Ok env, s') ->
  metadata_get "subset_size" env = Some (VInt (len (Envelope.items env))).
Proof.
  intros H; apply process_outcome in H
    as [[_ ->] | [[_ H] | (_ & surv & md & _ & [[_ ->] | (_ & p & ->)])]].
  - destruct skip; reflexivity.
  - apply select_items_early in H as (_ & _ & ->); reflexivity.
  - unfold metadata_get, Envelope.items; simpl.
    apply dict_get_set_same.
  - unfold metadata_get, Envelope.items; simpl.
    rewrite dict_get_set_other by discriminate; apply dict_get_set_same.
Qed.

(** X10: an envelope never holds more items than survived, nor more
    survivors than the processor was given; unless [force_no_file] is set,
    it holds at most [max_items_in_memory] items when that is not
    negative. *)
Theorem returned_items_bounds (items : list value) (request_url : string)
    (t : Z) (ros rl : bool) (dir : option string) (ftf fnf skip : bool)
    (s s' : state world) (env : dict) :
  _process_api_response items request_url t ros rl dir ftf fnf skip s
  = (Ok env, s') ->
  exists n,
    total env = Some n
    /\ len (Envelope.items env) <= n <= len items
    /\ (fnf = false -> 0 <= t -> len (Envelope.items env) <= t).
Proof.
  intros H; apply process_outcome in H
    as [[-> ->] | [[_ H] | (_ & surv & md & Hsel & [[Hc ->] | (Hc & p & ->)])]].
  - exists 0; destruct skip; simpl; repeat split; unfold len; simpl; lia.
  - apply select_items_early in H as (_ & _ & ->).
    exists 0; pose proof (len_nonneg items).
    repeat split; unfold len in *; simpl; lia.
  - apply select_items_metadata in Hsel as [Hle _].
    exists (len surv); unfold total, Envelope.items; simpl.
    split; [reflexivity | split; [lia |]].
    intros -> Ht; rewrite orb_false_iff in Hc; destruct Hc as [Hc _].
    rewrite andb_true_r, Z.gtb_ltb in Hc.
    apply Z.ltb_ge in Hc; exact Hc.
  - apply select_items_metadata in Hsel as [Hle _].
    exists (len surv); unfold total, Envelope.items; simpl.
    destruct (slice_to_firstn t surv) as [n Hn].
    assert (Hs : len (slice_to t surv) <= len surv)
      by (rewrite Hn; unfold len; rewrite length_firstn; lia).
    split; [reflexivity | split; [lia |]].
    intros _ Ht; rewrite slice_to_nonneg by exact Ht.
    unfold len; rewrite length_firstn; lia.
Qed.

(** X11: with significance processed, the envelope's metadata counts the
    items the processor was given and, among them, the significant ones,
    never more; with [return_only_sig] the total of the envelope is that
    count of significant items. *)
Theorem significance_counts (items : list value) (request_url : string)
    (t : Z) (ros rl : bool) (dir : option string) (ftf fnf : bool)
    (s s' : state world) (env : dict) :
  _process_api_response items request_url t ros rl dir ftf fnf false s
  = (Ok env, s') ->
  metadata_get "return_only_sig" env = Some (VBool ros)
  /\ metadata_get "total_items" env = Some (VInt (len items))
  /\ exists k,
       metadata_get "significant_items" env = Some (VInt k)
       /\ 0 <= k <= len items
       /\ (ros = true -> total env = Some k).
Proof.
  intros H; apply process_outcome in H
    as [[-> ->] | [[_ H] | (_ & surv & md & Hsel & Henv)]].
  - split; [reflexivity | split; [reflexivity |]].
    exists 0; unfold len; simpl; repeat split; try reflexivity; lia.
  - apply select_items_early in H as (_ & -> & ->).
    split; [reflexivity | split; [reflexivity |]].
    exists 0; pose proof (len_nonneg items); repeat split; try reflexivity; lia.
  - apply select_items_metadata in Hsel
      as [_ [(E & _) | (_ & k & -> & Hk & Hros)]]; [discriminate E |].
    destruct Henv as [[_ ->] | (_ & p & ->)];
      unfold metadata_get, total; simpl;
      (split; [reflexivity | split; [reflexivity |]]);
      exists k; (split; [reflexivity | split; [exact Hk |]]);
      intros Hr; rewrite (Hros Hr); reflexivity.
Qed.

(** X12: with [remove_links] on, no item of a returned envelope has the
    key ["_links"] at any depth. *)
Theorem returned_items_links_free (items : list value) (request_url : string)
    (t : Z) (ros : bool) (dir : option string) (ftf fnf skip : bool)
    (s s' : state world) (env : dict) :
  _process_api_response items request_url t ros true dir ftf fnf skip s
  = (Ok env, s') ->
  Forall (fun item => links_free item = true) (Envelope.items env).
Proof.
  intros H; apply process_outcome in H
    as [[_ ->] | [[_ H] | (_ & surv & md & Hsel & Henv)]].
  - destruct skip; constructor.
  - apply select_items_early in H as (_ & _ & ->); constructor.
  - assert (Hsurv : Forall (fun item => links_free item = true) surv).
    { apply (select_items_cases float_of_str) in Hsel
        as [[_ H] | (_ & annotated & sig & _ & _ & [(_ & _ & H) | [(_ & _ & H) | (_ & H)]])];
        inversion H; subst; rewrite Forall_forall; intros o Ho;
        apply in_map_iff in Ho as (a & <- & _); apply remove_links_free. }
    destruct Henv as [[_ ->] | (_ & p & ->)]; unfold Envelope.items; simpl;
      [exact Hsurv |].
    rewrite Forall_forall in Hsurv |- *; intros o Ho.
    apply Hsurv; exact (slice_to_in _ _ _ Ho).
Qed.



End Program.

End ProcessorFacts.

(* ================================================================== *)
(** * More properties of the operations *)
(* ================================================================== *)

Module OperationFacts.
Import Py Eff Utils Server Lookups Envelope Reading PyFacts UtilsFacts
  SortFacts ServerFacts LinkFacts ProcessorFacts.

Lemma count_gets_write (d : string) (doc : value) (log : list event) :
  count_gets (EvWrite d doc :: log) = count_gets log.
Proof. reflexivity. Qed.

Lemma count_gets_get (target : string) (params : dict) (log : list event) :
  count_gets (EvGet target params :: log) = S (count_gets log).
Proof. reflexivity. Qed.

Lemma filterR_keeps {A : Type} (p : A -> result bool) (l l' : list A) (x : A) :
  filterR p l = Ok l' -> In x l -> p x = Ok true -> In x l'.
Proof.
  revert l'; induction l as [| a r IH]; simpl; intros l' H Hin Hp;
    [destruct Hin |].
  apply rbind_ok in H as (b & Hb & H).
  apply rbind_ok in H as (ys & Hys & H).
  inversion H; subst; clear H.
  destruct Hin as [-> | Hin].
  - rewrite Hp in Hb; inversion Hb; subst; left; reflexivity.
  - specialize (IH ys Hys Hin Hp).
    destruct b; [right |]; exact IH.
Qed.

Section Program.
Variable world : Type.
Variable environ_get : string -> world -> option string.
Variable dump_json : string -> value -> world -> result string * world.
Variable float_of_str : string -> option spec_float.
Variable http_get : string -> dict -> world -> result response * world.
Variable response_text : response -> string.
Variable now_ms : world -> Z.

#[local] Abbreviation _process_api_response :=
  (_process_api_response world environ_get dump_json float_of_str).
#[local] Abbreviation extract_and_process :=
  (extract_and_process world environ_get dump_json float_of_str).
#[local] Abbreviation rank_items := (rank_items float_of_str).
#[local] Abbreviation pvalue_key := (pvalue_key float_of_str).
#[local] Abbreviation trait_variant_ranking :=
  (trait_variant_ranking world environ_get dump_json float_of_str http_get).
#[local] Abbreviation get_trait_studies :=
  (get_trait_studies world environ_get dump_json float_of_str http_get).
#[local] Abbreviation get_trait_associations :=
  (get_trait_associations world environ_get dump_json float_of_str http_get).
#[local] Abbreviation get_region_trait_associations :=
  (get_region_trait_associations world environ_get dump_json float_of_str
     http_get).
#[local] Abbreviation get_variants_from_efo_ids :=
  (get_variants_from_efo_ids world environ_get dump_json float_of_str
     http_get).
#[local] Abbreviation fetch_each :=
  (fetch_each world environ_get dump_json float_of_str http_get).
#[local] Abbreviation get_study_associations :=
  (get_study_associations world environ_get dump_json float_of_str http_get).
#[local] Abbreviation get_associations_from_variant :=
  (get_associations_from_variant world environ_get dump_json float_of_str
     http_get).
#[local] Abbreviation _get_object :=
  (_get_object world http_get response_text now_ms).
#[local] Abbreviation format_error :=
  (format_error world response_text now_ms).
#[local] Abbreviation get_study :=
  (get_study world http_get response_text now_ms).
#[local] Abbreviation get_association :=
  (get_association world http_get response_text now_ms).
#[local] Abbreviation get_variant :=
  (get_variant world http_get response_text now_ms).
#[local] Abbreviation get_trait :=
  (get_trait world http_get response_text now_ms).

(** ** What the processor does to the log and how many items it returns *)

Lemma process_log_gets (items : list value) (request_url : string) (t : Z)
    (ros rl : bool) (dir : option string) (ftf fnf skip : bool)
    (s : state world) :
  count_gets
    (snd (snd (_process_api_response items request_url t ros rl dir ftf fnf
                 skip s))) = count_gets (snd s).
Proof.
  destruct items as [| x r]; [reflexivity |].
  rewrite (process_nonempty world environ_get dump_json float_of_str)
    by discriminate.
  destruct (select_items float_of_str (x :: r) request_url t ros rl skip)
    as [[early | [surv md]] | e]; try reflexivity.
  destruct (((len surv >? t) && negb fnf) || ftf) eqn:Hc.
  - destruct (handle_large_spill world environ_get dump_json surv md
                request_url t dir ftf fnf s Hc) as [d Hrun].
    cbv zeta in Hrun; rewrite Hrun; reflexivity.
  - rewrite (handle_large_inline world environ_get dump_json surv md
               request_url t dir ftf fnf s Hc); reflexivity.
Qed.

Lemma extract_and_process_log_gets (resp : response) (key : string) (t : Z)
    (ros rl : bool) (dir : option string) (ftf fnf skip : bool)
    (s : state world) :
  count_gets
    (snd (snd (extract_and_process resp key t ros rl dir ftf fnf skip s)))
  = count_gets (snd s).
Proof.
  unfold Server.extract_and_process, bind, lift.
  destruct (json resp) as [body | e]; [apply process_log_gets | reflexivity].
Qed.

Lemma process_items_length (items : list value) (request_url : string)
    (t : Z) (ros rl : bool) (dir : option string) (ftf fnf skip : bool)
    (s s' : state world) (env : dict) :
  _process_api_response items request_url t ros rl dir ftf fnf skip s
  = (Ok env, s') ->
  len (Envelope.items env) <= len items.
Proof.
  intros H; apply (process_outcome world environ_get dump_json float_of_str) in H
    as [[-> ->] | [[_ H] | (_ & surv & md & Hsel & Henv)]].
  - destruct skip; unfold len; simpl; lia.
  - apply (select_items_early float_of_str) in H as (_ & _ & ->).
    pose proof (len_nonneg items); unfold len in *; simpl; lia.
  - apply (select_items_metadata float_of_str) in Hsel as [Hle _].
    destruct Henv as [[_ ->] | (_ & p & ->)]; unfold Envelope.items; simpl;
      [exact Hle |].
    destruct (slice_to_firstn t surv) as [n ->].
    unfold len in *; rewrite length_firstn; lia.
Qed.

(** ** The batch operation *)

Lemma fetch_each_entries (ids : list string) (acc : dict) (ros : bool)
    (t : Z) (ftf : bool) (dir : option string) (fnf rl : bool)
    (s s' : state world) (results : dict) :
  fetch_each ids acc ros t ftf dir fnf rl s = (Ok results, s') ->
  (forall k e, dict_get k acc = Some (VDict e) ->
               exists e', dict_get k results = Some (VDict e'))
  /\ (forall id, In id ids -> exists e', dict_get id results = Some (VDict e'))
  /\ count_gets (snd s') = (count_gets (snd s) + List.length ids)%nat.
Proof.
  revert acc s; induction ids as [| id r IH]; intros acc s H.
  - inversion H; subst; split; [| split].
    + intros k e Hk; exists e; exact Hk.
    + intros id [].
    + simpl; lia.
  - cbn [Server.fetch_each] in H; unfold bind at 1 in H.
    unfold requests_get in H.
    destruct (http_get _ _ (fst s)) as [[resp | e] w'] eqn:Hget;
      [| discriminate H].
    cbn [fst snd] in H; unfold bind at 1 in H.
    set (s1 := (w', EvGet (BASE_URL ++ "/associations")
                      [("efoTrait", VStr id);
                       ("size", VInt GWAS_API_PAGE_SIZE)] :: snd s)) in H.
    assert (Hentry : forall r1 s2,
               (if negb (status_code resp =? SUCCESS_STATUS_CODE)
                then ret (create_empty_response (url resp) t ros)
                else extract_and_process resp "associations" t ros rl dir
                       ftf fnf false) s1 = (r1, s2) ->
               count_gets (snd s2) = S (count_gets (snd s))).
    { intros r1 s2 E.
      destruct (negb (status_code resp =? SUCCESS_STATUS_CODE)).
      - inversion E; subst; reflexivity.
      - pose proof (extract_and_process_log_gets resp "associations" t ros
                      rl dir ftf fnf false s1) as Hg.
        rewrite E in Hg; exact Hg. }
    destruct ((if negb (status_code resp =? SUCCESS_STATUS_CODE)
               then ret (create_empty_response (url resp) t ros)
               else extract_and_process resp "associations" t ros rl dir ftf
                      fnf false) s1) as [[entry | e] s2] eqn:Hrun;
      [| discriminate H].
    specialize (Hentry _ _ eq_refl).
    destruct (IH _ _ H) as (Hacc & Hids & Hcount).
    split; [| split].
    + intros k e Hk.
      destruct (String.eqb_spec id k) as [-> | Hne].
      * apply (Hacc k entry); apply dict_get_set_same.
      * apply (Hacc k e); rewrite dict_get_set_other by exact Hne; exact Hk.
    + intros id' [<- | Hin]; [| apply Hids; exact Hin].
      apply (Hacc id entry); apply dict_get_set_same.
    + rewrite Hcount, Hentry; simpl; lia.
Qed.

(** One round of the second loop of the batch operation. *)
Lemma fetch_each_cons (id : string) (rest : list string) (acc : dict)
    (ros : bool) (t : Z) (ftf : bool) (dir : option string) (fnf rl : bool)
    (s s' : state world) (results : dict) :
  fetch_each (id :: rest) acc ros t ftf dir fnf rl s = (Ok results, s') ->
  let target := BASE_URL ++ "/associations" in
  let params := [("efoTrait", VStr id); ("size", VInt GWAS_API_PAGE_SIZE)] in
  exists resp w1 entry s2,
    http_get target params (fst s) = (Ok resp, w1)
    /\ (if status_code resp =? SUCCESS_STATUS_CODE
        then extract_and_process resp "associations" t ros rl dir ftf fnf
               false (w1, EvGet target params :: snd s)
        else (Ok (create_empty_response (url resp) t ros),
              (w1, EvGet target params :: snd s)))
       = (Ok entry, s2)
    /\ fetch_each rest (dict_set id (VDict entry) acc) ros t ftf dir fnf rl s2
       = (Ok results, s').
Proof.
  intros H target params.
  cbn [Server.fetch_each] in H; unfold bind at 1 in H.
  unfold requests_get in H; fold target params in H.
  destruct (http_get target params (fst s)) as [[resp | e] w1] eqn:Hget;
    [| discriminate H].
  cbn [fst snd] in H; unfold bind at 1 in H.
  exists resp, w1.
  destruct (status_code resp =? SUCCESS_STATUS_CODE); cbn [negb] in H.
  - destruct (extract_and_process resp "associations" t ros rl dir ftf fnf
                false (w1, EvGet target params :: snd s))
      as [[entry | e] s2] eqn:Hrun; [| discriminate H].
    exists entry, s2.
    split; [reflexivity | split; [reflexivity | exact H]].
  - unfold ret at 1 in H.
    eexists; eexists.
    split; [reflexivity | split; [reflexivity | exact H]].
Qed.

(** The loop over a list in two pieces is the loop over the first, then
    over the second. *)
Lemma fetch_each_app (before rest : list string) (acc : dict)
    (ros : bool) (t : Z) (ftf : bool) (dir : option string) (fnf rl : bool)
    (s s' : state world) (results : dict) :
  fetch_each (before ++ rest) acc ros t ftf dir fnf rl s = (Ok results, s') ->
  exists mid s1,
    fetch_each before acc ros t ftf dir fnf rl s = (Ok mid, s1)
    /\ fetch_each rest mid ros t ftf dir fnf rl s1 = (Ok results, s').
Proof.
  revert acc s; induction before as [| id r IH]; intros acc s H.
  - exists acc, s; split; [reflexivity | exact H].
  - change ((id :: r) ++ rest)%list with (id :: (r ++ rest))%list in H.
    cbn [Server.fetch_each] in H |- *.
    unfold bind at 1 in H; unfold bind at 1.
    destruct (requests_get world http_get (BASE_URL ++ "/associations")
                [("efoTrait", VStr id); ("size", VInt GWAS_API_PAGE_SIZE)] s)
      as [[resp | e] s1]; [| discriminate H].
    unfold bind at 1 in H; unfold bind at 1.
    destruct ((if negb (status_code resp =? SUCCESS_STATUS_CODE)
               then ret (create_empty_response (url resp) t ros)
               else extract_and_process resp "associations" t ros rl dir ftf
                      fnf false) s1) as [[entry | e] s2]; [| discriminate H].
    exact (IH _ _ H).
Qed.

(** The loop touches the entries of its identifiers only. *)
Lemma fetch_each_keeps (ids : list string) (acc : dict) (ros : bool)
    (t : Z) (ftf : bool) (dir : option string) (fnf rl : bool)
    (s s' : state world) (results : dict) (k : string) :
  fetch_each ids acc ros t ftf dir fnf rl s = (Ok results, s') ->
  ~ In k ids -> dict_get k results = dict_get k acc.
Proof.
  revert acc s; induction ids as [| id r IH]; intros acc s H Hk.
  - inversion H; reflexivity.
  - apply fetch_each_cons in H as (resp & w1 & entry & s2 & _ & _ & H).
    rewrite (IH _ _ H) by (intros Hin; apply Hk; right; exact Hin).
    apply dict_get_set_other; intros E; apply Hk; left; exact E.
Qed.

Lemma mapR_app_ok {A B : Type} (f : A -> result B) (l1 l2 : list A)
    (ys : list B) :
  mapR f (l1 ++ l2) = Ok ys -> exists ys1, mapR f l1 = Ok ys1.
Proof.
  revert ys; induction l1 as [| x r IH]; intros ys H;
    [exists []; reflexivity |].
  cbn [app mapR] in H |- *.
  apply rbind_ok in H as (y & Hy & H); apply rbind_ok in H as (ys' & Hr & _).
  destruct (IH _ Hr) as [ys1 E]; rewrite Hy, E; eexists; reflexivity.
Qed.

(** X16: when the batch operation returns, every identifier of the list
    had passed the validator, one request per identifier went out, the
    result has entries for the identifiers of the list only, and the
    entry of an identifier is the envelope made of the answer to its own
    request, the last one when it comes several times: the empty
    envelope on a status other than 200, else the processor's envelope on
    the items extracted from that answer. *)
Theorem batch_entries (ids : list string) (ros : bool) (t : Z) (ftf : bool)
    (dir : option string) (fnf rl : bool) (s s' : state world)
    (results : dict) :
  get_variants_from_efo_ids ids ros t ftf dir fnf rl s = (Ok results, s') ->
  Forall (fun id => validate_efo_id (VStr id) = Ok tt) ids
  /\ count_gets (snd s') = (count_gets (snd s) + List.length ids)%nat
  /\ (forall k, ~ In k ids -> dict_get k results = None)
  /\ (forall before id after,
        ids = (before ++ id :: after)%list -> ~ In id after ->
        let target := BASE_URL ++ "/associations" in
        let params :=
          [("efoTrait", VStr id); ("size", VInt GWAS_API_PAGE_SIZE)] in
        exists earlier s1 resp w1 entry,
          get_variants_from_efo_ids before ros t ftf dir fnf rl s
          = (Ok earlier, s1)
          /\ http_get target params (fst s1) = (Ok resp, w1)
          /\ (if status_code resp =? SUCCESS_STATUS_CODE
              then exists body,
                     json resp = Ok body
                     /\ fst (_process_api_response
                               (_extract_embedded_items body "associations")
                               (url resp) t ros rl dir ftf fnf false
                               (w1, EvGet target params :: snd s1))
                        = Ok entry
              else entry = create_empty_response (url resp) t ros)
          /\ dict_get id results = Some (VDict entry)).
Proof.
  unfold Server.get_variants_from_efo_ids at 1, bind at 1, lift.
  destruct (mapR (fun efo_id => validate_efo_id (VStr efo_id)) ids)
    as [us | e] eqn:Hv; [| discriminate].
  intros H; destruct (fetch_each_entries _ _ _ _ _ _ _ _ _ _ _ H)
    as (_ & _ & Hcount).
  split; [| split; [exact Hcount | split]].
  - rewrite Forall_forall; intros id Hin.
    clear H Hcount; revert us Hv; induction ids as [| a r IH];
      [destruct Hin |]; intros us Hv.
    cbn [mapR] in Hv; apply rbind_ok in Hv as ([] & Ha & Hv).
    apply rbind_ok in Hv as (us' & Hr & _).
    destruct Hin as [<- | Hin]; [exact Ha | exact (IH Hin us' Hr)].
  - intros k Hk; rewrite (fetch_each_keeps _ _ _ _ _ _ _ _ _ _ _ k H Hk).
    reflexivity.
  - intros before id after -> Hlast.
    destruct (mapR_app_ok _ _ _ _ Hv) as [us1 Hv1].
    apply fetch_each_app in H as (earlier & s1 & Hbefore & H).
    apply fetch_each_cons in H as (resp & w1 & entry & s2 & Hget & Hentry & H).
    exists earlier, s1, resp, w1, entry.
    split; [| split; [exact Hget | split]].
    + unfold Server.get_variants_from_efo_ids, bind at 1, lift.
      rewrite Hv1; exact Hbefore.
    + destruct (status_code resp =? SUCCESS_STATUS_CODE).
      * unfold Server.extract_and_process, bind at 1, lift in Hentry.
        destruct (json resp) as [body | e]; [| discriminate Hentry].
        exists body; split; [reflexivity |].
        cbn [fst] in Hentry |- *; rewrite Hentry; reflexivity.
      * inversion Hentry; reflexivity.
    + rewrite (fetch_each_keeps _ _ _ _ _ _ _ _ _ _ _ id H Hlast).
      apply dict_get_set_same.
Qed.

(** ** Validation before the request *)

(** X15: the ranking, the region-and-trait search, the region search
    given a trait, and the batch operation stop at an identifier the
    validator refuses: [ValueError], no request sent, nothing written; in
    the batch even when the identifiers before it are well formed. *)
Theorem malformed_identifier_stops_before_request (id : string)
    (s : state world) :
  validate_efo_id (VStr id) = Raise ValueError ->
  (forall top_n ros t ftf dir fnf rl,
      trait_variant_ranking id top_n ros t ftf dir fnf rl s
      = (Raise ValueError, s))
  /\ (forall chromosome start end_ ros t ftf dir fnf rl,
        get_region_trait_associations chromosome start end_ id ros t ftf dir
          fnf rl s = (Raise ValueError, s))
  /\ (forall chromosome start end_ ros t ftf dir fnf rl,
        truthy (VStr id) = true ->
        search_variants_in_region world environ_get dump_json float_of_str
          http_get chromosome start end_ (Some id) ros t ftf dir fnf rl s
        = (Raise ValueError, s))
  /\ (forall before after ros t ftf dir fnf rl,
        Forall (fun i => validate_efo_id (VStr i) = Ok tt) before ->
        get_variants_from_efo_ids (before ++ id :: after)%list ros t ftf dir
          fnf rl s = (Raise ValueError, s)).
Proof.
  exact (validated_operations_stop world environ_get dump_json float_of_str
           http_get id s).
Qed.

(** ** Upstream failure *)

(** X17: when the upstream answers with a status other than 200, the list
    operations return the canonical empty envelope for the URL called,
    after that one request and nothing else. *)
Theorem upstream_failure_gives_empty_envelope (resp : response) (w' : world)
    (s : state world) (ros : bool) (t : Z) (ftf : bool)
    (dir : option string) (fnf rl : bool) :
  status_code resp <> SUCCESS_STATUS_CODE ->
  (forall efoId,
      let target := BASE_URL ++ "/efoTraits/" ++ efoId ++ "/studies" in
      http_get target [] (fst s) = (Ok resp, w') ->
      get_trait_studies efoId t ftf dir fnf rl s
      = (Ok (create_empty_response (url resp) t false),
         (w', EvGet target [] :: snd s)))
  /\ (forall efoId,
        let target := BASE_URL ++ "/efoTraits/" ++ efoId ++ "/associations" in
        http_get target [] (fst s) = (Ok resp, w') ->
        get_trait_associations efoId ros t ftf dir fnf rl s
        = (Ok (create_empty_response (url resp) t ros),
           (w', EvGet target [] :: snd s)))
  /\ (forall studyId,
        let target := BASE_URL ++ "/studies/" ++ studyId ++ "/associations" in
        http_get target [] (fst s) = (Ok resp, w') ->
        get_study_associations studyId ros t ftf dir fnf rl s
        = (Ok (create_empty_response (url resp) t ros),
           (w', EvGet target [] :: snd s)))
  /\ (forall variantId,
        let target :=
          BASE_URL ++ "/singleNucleotidePolymorphisms/" ++ variantId
            ++ "/associations" in
        variantId <> "" ->
        http_get target [] (fst s) = (Ok resp, w') ->
        get_associations_from_variant (Some variantId) ros t ftf dir fnf rl s
        = (Ok (create_empty_response (url resp) t ros),
           (w', EvGet target [] :: snd s)))
  /\ (forall efo_id top_n,
        let target := BASE_URL ++ "/associations" in
        let params :=
          [("efoTrait", VStr efo_id); ("size", VInt GWAS_API_PAGE_SIZE)] in
        validate_efo_id (VStr efo_id) = Ok tt ->
        http_get target params (fst s) = (Ok resp, w') ->
        trait_variant_ranking efo_id top_n ros t ftf dir fnf rl s
        = (Ok (create_empty_response (url resp) t ros),
           (w', EvGet target params :: snd s))).
Proof.
  intros Hst.
  assert (Hneg : negb (status_code resp =? SUCCESS_STATUS_CODE) = true)
    by (apply negb_true_iff, Z.eqb_neq; exact Hst).
  split; [| split; [| split; [| split]]].
  - intros efoId target Hget.
    unfold Server.get_trait_studies, bind, requests_get.
    fold target; rewrite Hget; cbn [fst snd]; rewrite Hneg; reflexivity.
  - intros efoId target Hget.
    unfold Server.get_trait_associations, bind, requests_get.
    fold target; rewrite Hget; cbn [fst snd]; rewrite Hneg; reflexivity.
  - intros studyId target Hget.
    unfold Lookups.get_study_associations, bind, requests_get.
    fold target; rewrite Hget; cbn [fst snd]; rewrite Hneg; reflexivity.
  - intros variantId target Hne Hget.
    unfold Lookups.get_associations_from_variant, bind, requests_get.
    assert (Ht : truthy (VStr variantId) = true).
    { simpl; apply negb_true_iff.
      destruct (String.eqb_spec variantId ""); [contradiction | reflexivity]. }
    rewrite Ht; cbn [negb].
    fold target; rewrite Hget; cbn [fst snd]; rewrite Hneg; reflexivity.
  - intros efo_id top_n target params Hv Hget.
    rewrite (ranking_run world environ_get dump_json float_of_str http_get).
    rewrite Hv; cbv zeta; fold target params; rewrite Hget; cbn [fst snd].
    rewrite Hneg; reflexivity.
Qed.

(** ** The ranking *)

Lemma rank_items_length (items handed : list value) (top_n : Z) :
  0 <= top_n -> rank_items items top_n = Ok handed -> len handed <= top_n.
Proof.
  intros Ht H; unfold Server.rank_items in H.
  apply rbind_ok in H as (kept & _ & H).
  apply rbind_ok in H as (ordered & _ & H).
  inversion H; subst; rewrite slice_to_nonneg by exact Ht.
  unfold len; rewrite length_firstn; lia.
Qed.

(** X18: for [top_n] not negative, an envelope the ranking returns holds
    at most [top_n] items. *)
Theorem ranking_returns_at_most_top_n (efo_id : string) (top_n : Z)
    (ros : bool) (t : Z) (ftf : bool) (dir : option string) (fnf rl : bool)
    (s s' : state world) (env : dict) :
  0 <= top_n ->
  trait_variant_ranking efo_id top_n ros t ftf dir fnf rl s = (Ok env, s') ->
  len (Envelope.items env) <= top_n.
Proof.
  intros Ht.
  rewrite (ranking_run world environ_get dump_json float_of_str http_get).
  destruct (validate_efo_id (VStr efo_id)) as [[] | e]; [| discriminate].
  cbv zeta.
  destruct (fst (http_get _ _ (fst s))) as [resp | e]; [| discriminate].
  destruct (negb (status_code resp =? SUCCESS_STATUS_CODE)).
  { intros H; inversion H; subst; unfold len; simpl; lia. }
  destruct (json resp) as [body | e]; [| discriminate].
  destruct (_extract_embedded_items body "associations") as [| x r].
  { intros H; inversion H; subst; unfold len; simpl; lia. }
  destruct (rank_items (x :: r) top_n) as [handed | e] eqn:Hrank;
    [| discriminate].
  intros Hrun.
  pose proof (process_items_length _ _ _ _ _ _ _ _ _ _ _ _ Hrun).
  pose proof (rank_items_length _ _ _ Ht Hrank); lia.
Qed.

(** X19: the ranking does not forgive a p-value that does not convert:
    one extracted record with a truthy [pvalue] on which [float] raises
    makes the whole operation raise, after the request, with no
    envelope. *)
Theorem ranking_aborts_on_unparsable_pvalue (efo_id : string) (top_n : Z)
    (ros : bool) (t : Z) (ftf : bool) (dir : option string) (fnf rl : bool)
    (s : state world) (resp : response) (w' : world) (body : value)
    (r : value) (e0 : exn) :
  let target := BASE_URL ++ "/associations" in
  let params := [("efoTrait", VStr efo_id); ("size", VInt GWAS_API_PAGE_SIZE)] in
  validate_efo_id (VStr efo_id) = Ok tt ->
  http_get target params (fst s) = (Ok resp, w') ->
  status_code resp = SUCCESS_STATUS_CODE ->
  json resp = Ok body ->
  In r (_extract_embedded_items body "associations") ->
  has_pvalue r = Ok true ->
  pvalue_key r = Raise e0 ->
  exists e,
    trait_variant_ranking efo_id top_n ros t ftf dir fnf rl s
    = (Raise e, (w', EvGet target params :: snd s)).
Proof.
  intros target params Hv Hget Hst Hjson Hin Hp Hkey.
  rewrite (ranking_run world environ_get dump_json float_of_str http_get).
  rewrite Hv; cbv zeta; fold target params; rewrite Hget; cbn [fst snd].
  rewrite Hst, Z.eqb_refl, Hjson; cbn [negb].
  destruct (_extract_embedded_items body "associations") as [| x l] eqn:Hext;
    [destruct Hin |].
  assert (Hrank : exists e, rank_items (x :: l) top_n = Raise e).
  { unfold Server.rank_items.
    destruct (filterR has_pvalue (x :: l)) as [kept | e] eqn:Hk;
      [| exists e; reflexivity].
    pose proof (filterR_keeps _ _ _ r Hk Hin Hp) as Hr.
    unfold rbind at 1, sorted.
    destruct (mapR_raises
                (fun y => rbind (pvalue_key y) (fun k => Ok (k, y)))
                kept r e0 Hr) as [e He];
      [rewrite Hkey; reflexivity |].
    exists e; rewrite He; reflexivity. }
  destruct Hrank as [e He]; exists e; rewrite He; reflexivity.
Qed.

(** ** The single-object lookups *)

(** [_get_object], step by step. *)
Lemma get_object_run (path : string) (rl : bool) (s : state world) :
  _get_object path rl s
  = let target := BASE_URL ++ "/" ++ path in
    let s1 := (snd (http_get target [] (fst s)), EvGet target [] :: snd s) in
    match fst (http_get target [] (fst s)) with
    | Raise e => (Raise e, s1)
    | Ok resp =>
        if status_code resp =? SUCCESS_STATUS_CODE then
          match json resp with
          | Raise e => (Raise e, s1)
          | Ok data =>
              (Ok (stripped rl
                     match data with
                     | VDict d =>
                         VDict (dict_set "request_url" (VStr (url resp))
                                  (dict_set "status"
                                     (VInt (status_code resp)) d))
                     | _ => data
                     end), s1)
          end
        else format_error resp s1
    end.
Proof.
  unfold Lookups._get_object, bind, requests_get, lift, ret; cbv zeta.
  destruct (http_get _ _ (fst s)) as [[resp | e] w']; cbn [fst snd];
    [| reflexivity].
  destruct (status_code resp =? SUCCESS_STATUS_CODE); [| reflexivity].
  destruct (json resp) as [data | e]; [| reflexivity].
  destruct rl; reflexivity.
Qed.

(** X20: a lookup answered with 200 and a JSON object returns that object
    with [status] set to the status and [request_url] to the URL called,
    over whatever the upstream had under these names, every other field
    kept (stripped of links when asked for, and then no ["_links"] is left
    at any depth); a body that is no object is returned without these two
    fields. *)
Theorem lookup_success (path : string) (rl : bool) (s : state world)
    (resp : response) (w' : world) (data : value) :
  http_get (BASE_URL ++ "/" ++ path) [] (fst s) = (Ok resp, w') ->
  status_code resp = SUCCESS_STATUS_CODE ->
  json resp = Ok data ->
  exists v,
    _get_object path rl s
    = (Ok v, (w', EvGet (BASE_URL ++ "/" ++ path) [] :: snd s))
    /\ (rl = true -> links_free v = true)
    /\ (is_dict data = false -> v = stripped rl data)
    /\ (forall d,
          data = VDict d ->
          field "status" v = Some (VInt SUCCESS_STATUS_CODE)
          /\ field "request_url" v = Some (VStr (url resp))
          /\ forall k,
               k <> "status" -> k <> "request_url" -> k <> "_links" ->
               field k v = option_map (stripped rl) (dict_get k d)).
Proof.
  intros Hget Hst Hjson.
  rewrite get_object_run; cbv zeta; rewrite Hget; cbn [fst snd].
  rewrite Hst, Z.eqb_refl, Hjson.
  eexists; split; [reflexivity | split; [| split]].
  - intros ->; apply remove_links_free.
  - intros Hnd; destruct data; try reflexivity; discriminate Hnd.
  - intros d ->.
    assert (Hs : dict_get "status"
                   (dict_set "request_url" (VStr (url resp))
                      (dict_set "status" (VInt SUCCESS_STATUS_CODE) d))
                 = Some (VInt SUCCESS_STATUS_CODE))
      by (rewrite dict_get_set_other by discriminate; apply dict_get_set_same).
    destruct rl; unfold stripped, field.
    + rewrite remove_links_dict, !dict_get_remove_links by discriminate.
      rewrite Hs, dict_get_set_same.
      split; [reflexivity | split; [reflexivity |]].
      intros k Hk1 Hk2 Hk3.
      rewrite dict_get_remove_links by exact Hk3.
      rewrite !dict_get_set_other by (intros E; symmetry in E; contradiction).
      reflexivity.
    + rewrite Hs, dict_get_set_same.
      split; [reflexivity | split; [reflexivity |]].
      intros k Hk1 Hk2 _.
      rewrite !dict_get_set_other by (intros E; symmetry in E; contradiction).
      destruct (dict_get k d); reflexivity.
Qed.

(** X21: a lookup answered with another status returns an error object:
    the upstream's JSON object with [status], [request_url] and
    [timestamp] written over it and nothing stripped, or, when the body is
    no JSON, the object with ["Invalid JSON"] and the body text; a JSON
    body that is no object makes the lookup raise [TypeError]. *)
Theorem lookup_failure (path : string) (rl : bool) (s : state world)
    (resp : response) (w' : world) :
  http_get (BASE_URL ++ "/" ++ path) [] (fst s) = (Ok resp, w') ->
  status_code resp <> SUCCESS_STATUS_CODE ->
  let out := _get_object path rl s in
  snd out = (w', EvGet (BASE_URL ++ "/" ++ path) [] :: snd s)
  /\ (forall e,
        json resp = Raise e ->
        fst out
        = Ok (VDict [ ("error", VStr "Invalid JSON");
                      ("message", VStr (response_text resp));
                      ("status", VInt (status_code resp));
                      ("request_url", VStr (url resp));
                      ("timestamp", VInt (now_ms w')) ]))
  /\ (forall d,
        json resp = Ok (VDict d) ->
        fst out
        = Ok (VDict (dict_set "timestamp" (VInt (now_ms w'))
                       (dict_set "request_url" (VStr (url resp))
                          (dict_set "status" (VInt (status_code resp)) d)))))
  /\ (forall data,
        json resp = Ok data -> is_dict data = false ->
        fst out = Raise TypeError).
Proof.
  intros Hget Hst out; subst out.
  rewrite get_object_run; cbv zeta; rewrite Hget; cbn [fst snd].
  assert (Hne : (status_code resp =? SUCCESS_STATUS_CODE) = false)
    by (apply Z.eqb_neq; exact Hst).
  rewrite Hne; unfold Lookups.format_error; cbn [fst snd].
  split; [reflexivity | split; [| split]].
  - intros e He; rewrite He; reflexivity.
  - intros d Hd; rewrite Hd; reflexivity.
  - intros data Hd Hnd; rewrite Hd.
    destruct data; try reflexivity; discriminate Hnd.
Qed.

(** X22: [get_trait] and [get_association] add the identifier asked for
    to what the lookup returned exactly when that is a dict without the
    key ["error"]; anything else is passed on as it is. *)
Theorem identifier_echo (id : string) (rl : bool) (s : state world) :
  (forall v s1,
      _get_object ("efoTraits/" ++ id) rl s = (Ok v, s1) ->
      get_trait id rl s
      = (Ok (if is_dict v && negb (has_key "error" v)
             then match v with
                  | VDict d => VDict (dict_set "trait_id" (VStr id) d)
                  | _ => v
                  end
             else v), s1))
  /\ (forall v s1,
        _get_object ("associations/" ++ id) rl s = (Ok v, s1) ->
        get_association id rl s
        = (Ok (if is_dict v && negb (has_key "error" v)
               then match v with
                    | VDict d => VDict (dict_set "association_id" (VStr id) d)
                    | _ => v
                    end
               else v), s1))
  /\ (forall v s1,
        get_trait id rl s = (Ok v, s1) ->
        is_dict v = true -> has_key "error" v = false ->
        field "trait_id" v = Some (VStr id))
  /\ (forall v s1,
        get_association id rl s = (Ok v, s1) ->
        is_dict v = true -> has_key "error" v = false ->
        field "association_id" v = Some (VStr id)).
Proof.
  assert (Hecho : forall f v,
             echo_identifier f id v
             = if is_dict v && negb (has_key "error" v)
               then match v with
                    | VDict d => VDict (dict_set f (VStr id) d)
                    | _ => v
                    end
               else v).
  { intros f [| | | | | | d]; try reflexivity.
    unfold echo_identifier, has_key; simpl.
    destruct (dict_get "error" d); reflexivity. }
  assert (Hfield : forall f v,
             f <> "error" ->
             is_dict (echo_identifier f id v) = true ->
             has_key "error" (echo_identifier f id v) = false ->
             field f (echo_identifier f id v) = Some (VStr id)).
  { intros f [| | | | | | d] Hf; try discriminate.
    unfold echo_identifier, has_key, field.
    destruct (dict_get "error" d) eqn:E.
    - rewrite E; discriminate.
    - intros _ _; apply dict_get_set_same. }
  split; [| split; [| split]].
  - intros v s1 H; unfold Lookups.get_trait, bind, ret.
    rewrite H, Hecho; reflexivity.
  - intros v s1 H; unfold Lookups.get_association, bind, ret.
    rewrite H, Hecho; reflexivity.
  - intros v s1 H; unfold Lookups.get_trait, bind, ret in H.
    destruct (_get_object ("efoTraits/" ++ id) rl s) as [[v0 | e] s0];
      [| discriminate H].
    inversion H; subst; apply Hfield; discriminate.
  - intros v s1 H; unfold Lookups.get_association, bind, ret in H.
    destruct (_get_object ("associations/" ++ id) rl s) as [[v0 | e] s0];
      [| discriminate H].
    inversion H; subst; apply Hfield; discriminate.
Qed.

(** X23: without a variant identifier, absent or empty, the
    variant-associations operation returns an error object that names the
    function and the argument, and sends nothing upstream. *)
Theorem variant_identifier_required (variantId : option string) (ros : bool)
    (t : Z) (ftf : bool) (dir : option string) (fnf rl : bool)
    (s : state world) :
  variantId = None \/ variantId = Some "" ->
  exists env,
    get_associations_from_variant variantId ros t ftf dir fnf rl s
    = (Ok env, s)
    /\ has_key "error" (VDict env) = true
    /\ dict_get "function" env = Some (VStr "get_associations_from_variant")
    /\ dict_get "args" env
       = Some (VDict [("variantId",
                       match variantId with
                       | Some v => VStr v
                       | None => VNone
                       end)])
    /\ dict_get "items" env = None.
Proof.
  intros [-> | ->]; eexists; (split; [reflexivity |]);
    repeat split; reflexivity.
Qed.

(** X24: each single-object lookup sends exactly one request, to the path
    of its resource with the identifier in it, and never writes a file. *)
Theorem lookups_send_one_request (id : string) (rl : bool) (s : state world) :
  snd (snd (get_study id rl s))
  = EvGet (BASE_URL ++ "/studies/" ++ id) [] :: snd s
  /\ snd (snd (get_association id rl s))
     = EvGet (BASE_URL ++ "/associations/" ++ id) [] :: snd s
  /\ snd (snd (get_variant id rl s))
     = EvGet (BASE_URL ++ "/singleNucleotidePolymorphisms/" ++ id) [] :: snd s
  /\ snd (snd (get_trait id rl s))
     = EvGet (BASE_URL ++ "/efoTraits/" ++ id) [] :: snd s.
Proof.
  assert (H : forall path,
             snd (snd (_get_object path rl s))
             = EvGet (BASE_URL ++ "/" ++ path) [] :: snd s).
  { intros path; rewrite get_object_run; cbv zeta.
    destruct (fst (http_get _ _ (fst s))) as [resp | e]; [| reflexivity].
    destruct (status_code resp =? SUCCESS_STATUS_CODE).
    - destruct (json resp); reflexivity.
    - reflexivity. }
  split; [| split; [| split]].
  - unfold Lookups.get_study; rewrite H; reflexivity.
  - unfold Lookups.get_association, bind, ret.
    specialize (H ("associations/" ++ id)).
    destruct (_get_object ("associations/" ++ id) rl s) as [[v | e] s1];
      exact H.
  - unfold Lookups.get_variant; rewrite H; reflexivity.
  - unfold Lookups.get_trait, bind, ret.
    specialize (H ("efoTraits/" ++ id)).
    destruct (_get_object ("efoTraits/" ++ id) rl s) as [[v | e] s1];
      exact H.
Qed.

End Program.

End OperationFacts.

(* ================================================================== *)
(** * These properties on concrete inputs *)
(* ================================================================== *)

Module MoreExamples.
Import Py Eff Utils Server Lookups Envelope Reading ServerFacts
  ProcessorFacts OperationFacts.

Lemma add_gwas_significance_idempotent_witness :
  exists items',
    _add_gwas_significance Demo.float_of_str Demo.scenario_items = Ok items'
    /\ _add_gwas_significance Demo.float_of_str items' = Ok items'.
Proof.
  eexists; split; [vm_compute; reflexivity |].
  apply (add_gwas_significance_idempotent Demo.float_of_str
           Demo.scenario_items).
  vm_compute; reflexivity.
Defined.

Lemma add_gwas_significance_keeps_fields_witness :
  _add_gwas_significance Demo.float_of_str [VDict [("pvalue", VInt 1); ("rsid", VStr "rs1")]]
  = Ok [VDict [("pvalue", VInt 1); ("rsid", VStr "rs1");
               ("is_gwas_significant", VBool false)]]
  /\ Forall2
       (fun x y =>
          is_dict x = true /\ is_dict y = true
          /\ (forall k, k <> "is_gwas_significant" -> field k y = field k x)
          /\ (field "is_gwas_significant" y = Some VNone
              \/ exists b, field "is_gwas_significant" y = Some (VBool b)))
       [VDict [("pvalue", VInt 1); ("rsid", VStr "rs1")]]
       [VDict [("pvalue", VInt 1); ("rsid", VStr "rs1");
               ("is_gwas_significant", VBool false)]].
Proof.
  split; [reflexivity |].
  apply (add_gwas_significance_keeps_fields Demo.float_of_str); reflexivity.
Defined.

Lemma annotator_significance_witness :
  chosen_pvalue [("pvalue", VFloat (S754_zero false));
                 ("p_value", VFloat (S754_infinity false))]
  <> VNone
  /\ annotate_item Demo.float_of_str
       (VDict [("pvalue", VFloat (S754_zero false));
               ("p_value", VFloat (S754_infinity false))])
     = Ok (VDict [("pvalue", VFloat (S754_zero false));
                  ("p_value", VFloat (S754_infinity false));
                  ("is_gwas_significant", VBool false)]).
Proof.
  split; [discriminate |].
  rewrite (proj1 (proj2 (proj2
             (annotator_significance Demo.float_of_str
                [("pvalue", VFloat (S754_zero false));
                 ("p_value", VFloat (S754_infinity false))])))
             (S754_infinity false) ltac:(discriminate) eq_refl).
  reflexivity.
Defined.

Lemma processor_aborts_on_bad_item_witness :
  In (VDict [("pvalue", VInt (10 ^ 400))])
     [VDict [("pvalue", VInt 1)]; VDict [("pvalue", VInt (10 ^ 400))]]
  /\ Py.to_float Demo.float_of_str
       (chosen_pvalue [("pvalue", VInt (10 ^ 400))]) = Raise OverflowError
  /\ exists e,
       Demo.process
         [VDict [("pvalue", VInt 1)]; VDict [("pvalue", VInt (10 ^ 400))]]
         "u" 10 true true None false false false Demo.start
       = (Raise e, Demo.start).
Proof.
  assert (Hov : Py.to_float Demo.float_of_str
                  (chosen_pvalue [("pvalue", VInt (10 ^ 400))])
                = Raise OverflowError) by (vm_compute; reflexivity).
  split; [right; left; reflexivity | split; [exact Hov |]].
  apply (processor_aborts_on_bad_item Demo.world Demo.environ_get
           Demo.dump_json Demo.float_of_str
           [VDict [("pvalue", VInt 1)]; VDict [("pvalue", VInt (10 ^ 400))]]
           (VDict [("pvalue", VInt (10 ^ 400))])).
  - right; left; reflexivity.
  - right; eexists; split; [reflexivity | exact Hov].
Defined.

Lemma subset_size_accounting_witness :
  exists env s',
    Demo.process Demo.ranking_items "u" 2 false true None false false false
      Demo.start = (Ok env, s')
    /\ List.length (Envelope.items env) = 2%nat
    /\ metadata_get "subset_size" env
       = Some (VInt (len (Envelope.items env))).
Proof.
  eexists; eexists; split; [vm_compute; reflexivity |].
  split; [reflexivity |].
  eapply (subset_size_accounting Demo.world Demo.environ_get Demo.dump_json
            Demo.float_of_str Demo.ranking_items "u" 2 false true None false
            false false Demo.start).
  vm_compute; reflexivity.
Defined.

Lemma returned_items_bounds_witness :
  exists env s',
    Demo.process Demo.ranking_items "u" 2 false true None false false false
      Demo.start = (Ok env, s')
    /\ exists n,
         total env = Some n
         /\ len (Envelope.items env) <= n <= len Demo.ranking_items
         /\ (false = false -> 0 <= 2 -> len (Envelope.items env) <= 2).
Proof.
  eexists; eexists; split; [vm_compute; reflexivity |].
  eapply (returned_items_bounds Demo.world Demo.environ_get Demo.dump_json
            Demo.float_of_str Demo.ranking_items "u" 2 false true None false
            false false Demo.start).
  vm_compute; reflexivity.
Defined.

Lemma significance_counts_witness :
  exists env s',
    Demo.process Demo.ranking_items "u" 10 true true None false false false
      Demo.start = (Ok env, s')
    /\ metadata_get "return_only_sig" env = Some (VBool true)
    /\ metadata_get "total_items" env = Some (VInt (len Demo.ranking_items))
    /\ exists k,
         metadata_get "significant_items" env = Some (VInt k)
         /\ 0 <= k <= len Demo.ranking_items
         /\ (true = true -> total env = Some k).
Proof.
  eexists; eexists; split; [vm_compute; reflexivity |].
  eapply (significance_counts Demo.world Demo.environ_get Demo.dump_json
            Demo.float_of_str Demo.ranking_items "u" 10 true true None false
            false Demo.start).
  vm_compute; reflexivity.
Defined.

Lemma returned_items_links_free_witness :
  exists env s',
    Demo.process Samples.linked_items "u" 10 false true None false false true Demo.start = (Ok env, s')
    /\ List.length (Envelope.items env) = 1%nat
    /\ Forall (fun item => links_free item = true) (Envelope.items env).
Proof.
  eexists; eexists; split; [vm_compute; reflexivity |].
  split; [reflexivity |].
  eapply (returned_items_links_free Demo.world Demo.environ_get
            Demo.dump_json Demo.float_of_str Samples.linked_items "u" 10
            false None false false
            true Demo.start).
  vm_compute; reflexivity.
Defined.


Lemma malformed_identifier_stops_before_request_witness :
  validate_efo_id (VStr "EFO_12a") = Raise ValueError
  /\ Demo.ranking (Demo.embedded_body "associations" (VList Demo.ranking_items))
       "EFO_12a" 2 true 5000 false None false true Demo.start
     = (Raise ValueError, Demo.start).
Proof.
  split; [reflexivity |].
  apply (proj1 (malformed_identifier_stops_before_request Demo.world
                  Demo.environ_get
                  Demo.dump_json Demo.float_of_str
                  (Demo.upstream 200
                     (Demo.embedded_body "associations"
                        (VList Demo.ranking_items)))
                  "EFO_12a" Demo.start eq_refl)).
Defined.

Lemma batch_entries_witness :
  let body := Demo.embedded_body "associations" (VList Demo.scenario_items) in
  let target := BASE_URL ++ "/associations" in
  let params :=
    [("efoTrait", VStr "EFO_0004340"); ("size", VInt GWAS_API_PAGE_SIZE)] in
  exists results s',
    Samples.batch body ["EFO_0001360"; "EFO_0004340"] true 5000 false None
      false true Demo.start = (Ok results, s')
    /\ Forall (fun id => validate_efo_id (VStr id) = Ok tt)
         ["EFO_0001360"; "EFO_0004340"]
    /\ count_gets (snd s') = (count_gets (snd Demo.start) + 2)%nat
    /\ dict_get "EFO_0000305" results = None
    /\ exists earlier s1 resp w1 entry,
         Samples.batch body ["EFO_0001360"] true 5000 false None false true
           Demo.start = (Ok earlier, s1)
         /\ Demo.upstream 200 body target params (fst s1) = (Ok resp, w1)
         /\ (if status_code resp =? SUCCESS_STATUS_CODE
             then exists body',
                    json resp = Ok body'
                    /\ fst (Demo.process
                              (_extract_embedded_items body' "associations")
                              (url resp) 5000 true true None false false false
                              (w1, EvGet target params :: snd s1))
                       = Ok entry
             else entry = create_empty_response (url resp) 5000 true)
         /\ dict_get "EFO_0004340" results = Some (VDict entry).
Proof.
  intros body target params.
  eexists; eexists; split; [vm_compute; reflexivity |].
  destruct (batch_entries Demo.world Demo.environ_get Demo.dump_json
              Demo.float_of_str (Demo.upstream 200 body)
              ["EFO_0001360"; "EFO_0004340"] true 5000 false None false true
              Demo.start _ _ eq_refl) as (Hv & Hc & Hk & He).
  split; [exact Hv | split; [exact Hc | split]].
  - apply Hk; intros [E | [E | []]]; discriminate E.
  - exact (He ["EFO_0001360"] "EFO_0004340" [] eq_refl (fun H => H)).
Defined.

Lemma upstream_failure_gives_empty_envelope_witness :
  404 <> SUCCESS_STATUS_CODE
  /\ Samples.study_associations 404 VNone "GCST000001" true 5000 false None
       false true Demo.start
     = (Ok (create_empty_response
              (BASE_URL ++ "/studies/GCST000001/associations") 5000 true),
        (tt, [EvGet (BASE_URL ++ "/studies/GCST000001/associations") []])).
Proof.
  split; [discriminate |].
  apply (proj1 (proj2 (proj2
           (upstream_failure_gives_empty_envelope Demo.world Demo.environ_get
              Demo.dump_json Demo.float_of_str (Demo.upstream 404 VNone)
              (mkResponse 404 (BASE_URL ++ "/studies/GCST000001/associations")
                 (Ok VNone))
              tt Demo.start true 5000 false None false true
              ltac:(discriminate)))) "GCST000001" eq_refl).
Defined.

Lemma ranking_returns_at_most_top_n_witness :
  let body := Demo.embedded_body "associations" (VList Demo.ranking_items) in
  exists env s',
    0 <= 2
    /\ Demo.ranking body "EFO_0000305" 2 false 5000 false None false true
         Demo.start = (Ok env, s')
    /\ len (Envelope.items env) <= 2.
Proof.
  intros body.
  eexists; eexists; split; [lia |].
  split; [vm_compute; reflexivity |].
  eapply (ranking_returns_at_most_top_n Demo.world Demo.environ_get
            Demo.dump_json Demo.float_of_str (Demo.upstream 200 body)
            "EFO_0000305" 2 false 5000 false None false true Demo.start);
    [lia | vm_compute; reflexivity].
Defined.

Lemma ranking_aborts_on_unparsable_pvalue_witness :
  let body :=
    Demo.embedded_body "associations"
      (VList [Demo.with_pvalue (VStr "1e-9"); Demo.with_pvalue (VStr "n/a")]) in
  has_pvalue (Demo.with_pvalue (VStr "n/a")) = Ok true
  /\ pvalue_key Demo.float_of_str (Demo.with_pvalue (VStr "n/a"))
     = Raise ValueError
  /\ exists e,
       Demo.ranking body "EFO_0000305" 2 true 5000 false None false true
         Demo.start
       = (Raise e,
          (tt, [EvGet (BASE_URL ++ "/associations")
                  [("efoTrait", VStr "EFO_0000305");
                   ("size", VInt GWAS_API_PAGE_SIZE)]])).
Proof.
  intros body.
  split; [reflexivity | split; [reflexivity |]].
  apply (ranking_aborts_on_unparsable_pvalue Demo.world Demo.environ_get
           Demo.dump_json Demo.float_of_str (Demo.upstream 200 body)
           "EFO_0000305" 2 true 5000 false None false true Demo.start
           (mkResponse 200 (BASE_URL ++ "/associations") (Ok body)) tt body
           (Demo.with_pvalue (VStr "n/a")) ValueError);
    try reflexivity.
  right; left; reflexivity.
Defined.

Lemma lookup_success_witness :
  let body :=
    VDict [("accessionId", VStr "GCST1"); ("status", VStr "published");
           ("_links", VDict [("self", VStr "u")])] in
  exists v,
    Samples.lookup (Demo.upstream 200 body) "studies/GCST1" true Demo.start
    = (Ok v, (tt, [EvGet (BASE_URL ++ "/studies/GCST1") []]))
    /\ v = VDict [("accessionId", VStr "GCST1"); ("status", VInt 200);
                  ("request_url", VStr (BASE_URL ++ "/studies/GCST1"))]
    /\ links_free v = true.
Proof.
  intros body.
  destruct (lookup_success Demo.world (Demo.upstream 200 body)
              Samples.response_text Samples.now_ms "studies/GCST1" true
              Demo.start
              (mkResponse 200 (BASE_URL ++ "/studies/GCST1") (Ok body)) tt
              body eq_refl eq_refl eq_refl)
    as (v & Hrun & Hfree & _).
  exists v; split; [exact Hrun | split; [| apply Hfree; reflexivity]].
  vm_compute in Hrun; inversion Hrun; reflexivity.
Defined.

Lemma lookup_failure_witness :
  404 <> SUCCESS_STATUS_CODE
  /\ Samples.trait (Samples.upstream_text 404) "EFO_0000305" true Demo.start
     = (Ok (VDict [ ("error", VStr "Invalid JSON");
                    ("message", VStr "Not Found");
                    ("status", VInt 404);
                    ("request_url",
                      VStr (BASE_URL ++ "/efoTraits/EFO_0000305"));
                    ("timestamp", VInt 1700000000000) ]),
        (tt, [EvGet (BASE_URL ++ "/efoTraits/EFO_0000305") []])).
Proof.
  split; [discriminate |].
  destruct (lookup_failure Demo.world (Samples.upstream_text 404)
              Samples.response_text Samples.now_ms "efoTraits/EFO_0000305"
              true Demo.start
              (mkResponse 404 (BASE_URL ++ "/efoTraits/EFO_0000305")
                 (Raise ValueError)) tt eq_refl ltac:(discriminate))
    as (Hs & Herr & _).
  specialize (Herr ValueError eq_refl).
  unfold Samples.trait, Lookups.get_trait, bind, ret.
  destruct (_get_object Demo.world (Samples.upstream_text 404)
              Samples.response_text Samples.now_ms "efoTraits/EFO_0000305"
              true Demo.start) as [r s1].
  cbn [fst snd] in Hs, Herr; subst r s1; reflexivity.
Defined.

Lemma variant_identifier_required_witness :
  exists env,
    get_associations_from_variant Demo.world Demo.environ_get Demo.dump_json
      Demo.float_of_str (Demo.upstream 200 VNone) (Some "") true 5000 false
      None false true Demo.start = (Ok env, Demo.start)
    /\ has_key "error" (VDict env) = true.
Proof.
  destruct (variant_identifier_required Demo.world Demo.environ_get
              Demo.dump_json Demo.float_of_str (Demo.upstream 200 VNone)
              (Some "") true 5000 false None false true Demo.start
              (or_intror eq_refl))
    as (env & Hrun & Herr & _).
  exists env; split; assumption.
Defined.

End MoreExamples.
